(** * tiled: file-sequence adapter, dataframe client and settings accessor

    A shallow embedding of
      - [tiled/adapters/sequence.py]  ([FileSequenceAdapter]),
      - [tiled/client/dataframe.py]   ([read_partition]),
      - [tiled/server/settings.py]    ([get_settings]),
    together with the fragment of Python and numpy they rely on
    (sequence indexing, [slice.indices], basic ndarray indexing,
    [np.squeeze], [np.atleast_1d]). *)

From Stdlib Require Import Ascii String.
From Stdlib Require Import List ZArith Lia Bool Arith.
Import ListNotations.
Local Open Scope Z_scope.

(* ================================================================== *)
(** * Python exceptions and effectful results *)
(* ================================================================== *)

Module Py.

Inductive exn : Type :=
| IndexError
| RuntimeError
| ValueError
| KeyError
| ClientError.

Inductive result (A : Type) : Type :=
| Ok (a : A)
| Raise (e : exn).
Arguments Ok {A} a.
Arguments Raise {A} e.

Definition rbind {A B} (r : result A) (f : A -> result B) : result B :=
  match r with
  | Ok a => f a
  | Raise e => Raise e
  end.

Definition rmap {A B} (f : A -> B) (r : result A) : result B :=
  rbind r (fun a => Ok (f a)).

(** A computation that performs observable accesses of kind [E] (files
    opened, HTTP requests sent) and then returns or raises.  The accesses
    performed before an exception stay in the log. *)
Definition io (E A : Type) : Type := (list E * result A)%type.

Definition ret {E A} (a : A) : io E A := ([], Ok a).
Definition raise {E A} (e : exn) : io E A := ([], Raise e).
Definition lift {E A} (r : result A) : io E A := ([], r).

Definition bind {E A B} (m : io E A) (f : A -> io E B) : io E B :=
  match m with
  | (l, Ok a) => let (l', r) := f a in (l ++ l', r)
  | (l, Raise e) => (l, Raise e)
  end.

Definition log {E A} (m : io E A) : list E := fst m.
Definition outcome {E A} (m : io E A) : result A := snd m.

End Py.

Import Py.

Declare Scope io_scope.
Delimit Scope io_scope with io.
Notation "x <- m ;; k" := (bind m (fun x => k))
  (at level 61, m at next level, right associativity) : io_scope.
Notation "x <~ r ;; k" := (rbind r (fun x => k))
  (at level 61, r at next level, right associativity) : io_scope.
Local Open Scope io_scope.

(* ================================================================== *)
(** * Python sequences and slices *)
(* ================================================================== *)

(** [builtins.slice(start, stop, step)]; [None] fields are [None]. *)
Record pyslice : Type := mk_slice
  { sl_start : option Z; sl_stop : option Z; sl_step : option Z }.

(** [slice(None)], the default argument of [_load_from_files]. *)
Definition slice_all : pyslice := mk_slice None None None.

(** [slice(a, b)]. *)
Definition slice2 (a b : Z) : pyslice := mk_slice (Some a) (Some b) None.

(** [seq[i]] on a sequence of length [n]: negative positions count from
    the end, anything outside raises IndexError. *)
Definition norm_index (n : nat) (i : Z) : option nat :=
  let i' := if i <? 0 then i + Z.of_nat n else i in
  if (0 <=? i') && (i' <? Z.of_nat n) then Some (Z.to_nat i') else None.

(** The positions selected by [seq[s]] on a sequence of length [n],
    as [slice.indices] computes them: each bound is shifted by [n] when
    negative and then clamped. *)
Definition slice_indices (s : pyslice) (n : nat) : result (list nat) :=
  let len := Z.of_nat n in
  let step := match sl_step s with Some k => k | None => 1 end in
  if step =? 0 then Raise ValueError
  else
    let lower := if step <? 0 then -1 else 0 in
    let upper := if step <? 0 then len - 1 else len in
    let clamp v :=
      if v <? 0 then Z.max (v + len) lower else Z.min v upper in
    let start := match sl_start s with
                 | Some v => clamp v
                 | None => if step <? 0 then upper else lower
                 end in
    let stop := match sl_stop s with
                | Some v => clamp v
                | None => if step <? 0 then lower else upper
                end in
    let count :=
      if step <? 0
      then (if stop <? start then (start - stop - 1) / (- step) + 1 else 0)
      else (if start <? stop then (stop - start - 1) / step + 1 else 0) in
    Ok (map (fun k => Z.to_nat (start + Z.of_nat k * step))
            (seq 0 (Z.to_nat count))).

(** [any(xs)] on a tuple of ints. *)
Definition any (xs : list Z) : bool := existsb (fun x => negb (x =? 0)) xs.

(* ================================================================== *)
(** * numpy arrays *)
(* ================================================================== *)

Module Np.

Inductive dtype : Type := uint8 | int64 | float64.

(** An ndarray in C order: [data] holds [size shape] elements. *)
Record ndarray : Type := mk_ndarray
  { a_dtype : dtype; shape : list nat; data : list Z }.

Definition size (sh : list nat) : nat := fold_right Nat.mul 1%nat sh.

Definition wf (a : ndarray) : Prop := length (data a) = size (shape a).

(** The [j]-th block of [sz] consecutive elements. *)
Definition chunk (sz j : nat) (d : list Z) : list Z :=
  firstn sz (skipn (j * sz) d).

(** One entry of an index tuple, as in [NDSlice]. *)
Inductive axis_index : Type :=
| AInt (i : Z)
| ASlice (s : pyslice)
| AEllipsis.

(** An index entry once [...] has been expanded. *)
Inductive dim_index : Type :=
| DInt (i : Z)
| DSlice (s : pyslice).

(** [:], a whole axis. *)
Definition full : dim_index := DSlice slice_all.

Definition n_ellipsis (key : list axis_index) : nat :=
  length (filter (fun k => match k with AEllipsis => true | _ => false end) key).

Definition n_explicit (key : list axis_index) : nat :=
  length (filter (fun k => match k with AEllipsis => false | _ => true end) key).

Fixpoint expand_with (fill : nat) (key : list axis_index) : list dim_index :=
  match key with
  | [] => []
  | AInt i :: k => DInt i :: expand_with fill k
  | ASlice s :: k => DSlice s :: expand_with fill k
  | AEllipsis :: k => repeat full fill ++ expand_with fill k
  end.

(** Bring an index tuple to one entry per axis: at most one [...], no
    more entries than axes, missing axes selected in full. *)
Definition expand (ndim : nat) (key : list axis_index)
  : result (list dim_index) :=
  if (1 <? n_ellipsis key)%nat then Raise IndexError
  else if (ndim <? n_explicit key)%nat then Raise IndexError
  else
    let fill := (ndim - n_explicit key)%nat in
    Ok (expand_with fill key
        ++ (if (n_ellipsis key =? 0)%nat
            then repeat full fill else [])).

Fixpoint index_shape (sh : list nat) (key : list dim_index)
  : result (list nat) :=
  match key, sh with
  | [], _ => Ok sh
  | _ :: _, [] => Raise IndexError
  | DInt i :: k, n :: sh' =>
      match norm_index n i with
      | None => Raise IndexError
      | Some _ => index_shape sh' k
      end
  | DSlice s :: k, n :: sh' =>
      idxs <~ slice_indices s n ;;
      r <~ index_shape sh' k ;;
      Ok (length idxs :: r)
  end.

Fixpoint index_data (sh : list nat) (key : list dim_index) (d : list Z)
  : list Z :=
  match key, sh with
  | DInt i :: k, n :: sh' =>
      match norm_index n i with
      | Some j => index_data sh' k (chunk (size sh') j d)
      | None => []
      end
  | DSlice s :: k, n :: sh' =>
      match slice_indices s n with
      | Ok idxs =>
          flat_map (fun j => index_data sh' k (chunk (size sh') j d)) idxs
      | Raise _ => []
      end
  | _, _ => d
  end.

(** [a[key]] for a tuple [key] of ints, slices and [...] (basic
    indexing; the result of an all-int key is a 0-d value). *)
Definition getitem (a : ndarray) (key : list axis_index) : result ndarray :=
  dk <~ expand (length (shape a)) key ;;
  sh <~ index_shape (shape a) dk ;;
  Ok (mk_ndarray (a_dtype a) sh (index_data (shape a) dk (data a))).

(** [a[None]]: a new leading axis of length 1. *)
Definition newaxis (a : ndarray) : ndarray :=
  mk_ndarray (a_dtype a) (1%nat :: shape a) (data a).

(** [np.squeeze(a, 0)]. *)
Definition squeeze0 (a : ndarray) : result ndarray :=
  match shape a with
  | 1%nat :: sh => Ok (mk_ndarray (a_dtype a) sh (data a))
  | _ => Raise ValueError
  end.

(** [np.atleast_1d(a)]. *)
Definition atleast_1d (a : ndarray) : ndarray :=
  match shape a with
  | [] => mk_ndarray (a_dtype a) [1%nat] (data a)
  | _ => a
  end.

End Np.

Import Np.

(* ================================================================== *)
(** * tiled.structures.array *)
(* ================================================================== *)

Record ArrayStructure : Type := mk_ArrayStructure
  { data_type : dtype;
    chunks : list (list nat);
    s_shape : list nat }.

Definition sum (l : list nat) : nat := fold_right Nat.add 0%nat l.

(** Chunk coverage: along every dimension the chunk lengths add up to
    the extent of that dimension. *)
Definition chunks_cover (st : ArrayStructure) : Prop :=
  map sum (chunks st) = s_shape st.

(* ================================================================== *)
(** * tiled.adapters.sequence *)
(* ================================================================== *)

Module Sequence.

(** The files behind [self.filepaths], by position.  The class assumes
    that every file holds an array of one shape and one dtype; [slabs]
    gives the elements of each file in C order. *)
Record files : Type := mk_files
  { slab_dtype : dtype;
    slab_shape : list nat;
    slabs : list (list Z) }.

Definition wf_files (fs : files) : Prop :=
  Forall (fun d => length d = size (slab_shape fs)) (slabs fs).

(** The slab of file [j] as an array. *)
Definition slab (fs : files) (j : nat) : ndarray :=
  mk_ndarray (slab_dtype fs) (slab_shape fs) (nth j (slabs fs) []).

(** The logical array: all slabs stacked along a new leading axis. *)
Definition stacked (fs : files) : ndarray :=
  mk_ndarray (slab_dtype fs)
             (length (slabs fs) :: slab_shape fs)
             (concat (slabs fs)).

(** Argument of [_load_from_files]: [Union[builtins.slice, int]]. *)
Inductive load_arg : Type :=
| LInt (i : Z)
| LSlice (s : pyslice).

(** Modelled from the spec: the [_load_from_files] override, which
    sequence.py declares abstract.  It selects files by Python sequence
    indexing of [self.filepaths], opens exactly the selected files (their
    positions are logged, in order) and returns their slabs stacked along
    an additional left-most dimension; an int selects one file and still
    yields that extra dimension, of length 1. *)
Definition _load_from_files (fs : files) (slice : load_arg)
  : io nat ndarray :=
  let n := length (slabs fs) in
  match slice with
  | LInt i =>
      match norm_index n i with
      | None => raise IndexError
      | Some j =>
          ([j], Ok (mk_ndarray (slab_dtype fs) (1%nat :: slab_shape fs)
                               (nth j (slabs fs) [])))
      end
  | LSlice s =>
      match slice_indices s n with
      | Raise e => raise e
      | Ok idxs =>
          (idxs, Ok (mk_ndarray (slab_dtype fs)
                                (length idxs :: slab_shape fs)
                                (flat_map (fun j => nth j (slabs fs) []) idxs)))
      end
  end.

(** Modelled from the spec: [type_alliases.NDSlice], a per-dimension
    specification: one int, one slice, [...], or a tuple of these. *)
Inductive NDSlice : Type :=
| NEllipsis
| NInt (i : Z)
| NSlice (s : pyslice)
| NTuple (items : list axis_index).

(** What a caller can hand to [read]: an [NDSlice], [None], or an object
    of some other type (named by [type_name]). *)
Inductive slice_arg : Type :=
| Sel (s : NDSlice)
| PyNone
| PyOther (type_name : string).

Record FileSequenceAdapter : Type := mk_adapter
  { filepaths : files;
    _structure : ArrayStructure }.

(** [__init__], as far as [filepaths] and [structure] go. *)
Definition __init__ (filepaths : files) (structure : option ArrayStructure)
  : io nat FileSequenceAdapter :=
  match structure with
  | Some st => ret (mk_adapter filepaths st)
  | None =>
      dat0 <- _load_from_files filepaths (LInt 0) ;;
      let shape := length (slabs filepaths) :: tl (shape dat0) in
      ret (mk_adapter filepaths
             (mk_ArrayStructure
                (a_dtype dat0)
                (repeat 1%nat (hd 0%nat shape)
                 :: map (fun i => [i]) (tl shape))
                shape))
  end.

Definition structure (self : FileSequenceAdapter) : ArrayStructure :=
  _structure self.

(** [read] on a selector that is not a tuple: the first three branches.
    The calls [self.read(slice=slice[0])] and [self.read(slice=left_axis)]
    land here, tuple entries being ints, slices or [...]. *)
Definition read_axis (self : FileSequenceAdapter) (slice : axis_index)
  : io nat ndarray :=
  match slice with
  | AEllipsis => _load_from_files (filepaths self) (LSlice slice_all)
  | AInt i =>
      arr <- _load_from_files (filepaths self) (LInt i) ;;
      lift (squeeze0 arr)
  | ASlice s => _load_from_files (filepaths self) (LSlice s)
  end.

(** [read(self, slice)].  The branches follow the [isinstance] tests in
    order; [NDSlice] types the entries of a tuple, so the three tests on
    [left_axis] cover every entry. *)
Definition read (self : FileSequenceAdapter) (slice : slice_arg)
  : io nat ndarray :=
  match slice with
  | Sel NEllipsis => read_axis self AEllipsis
  | Sel (NInt i) => read_axis self (AInt i)
  | Sel (NSlice s) => read_axis self (ASlice s)
  | Sel (NTuple []) => _load_from_files (filepaths self) (LSlice slice_all)
  | Sel (NTuple [x]) => read_axis self x
  | Sel (NTuple (left_axis :: the_rest)) =>
      p <- match left_axis with
           | AInt i =>
               arr <- _load_from_files (filepaths self) (LInt i) ;;
               arr <- lift (squeeze0 arr) ;;
               ret (arr, the_rest)
           | AEllipsis =>
               arr <- _load_from_files (filepaths self) (LSlice slice_all) ;;
               ret (arr, AEllipsis :: the_rest)
           | ASlice s =>
               arr <- read_axis self (ASlice s) ;;
               ret (arr, the_rest)
           end ;;
      arr <- lift (getitem (fst p) (snd p)) ;;
      ret (atleast_1d arr)
  | PyNone | PyOther _ => raise RuntimeError
  end.

(** [arr[slice]] for the [slice] argument of [read_block]; [None] is
    numpy's [newaxis]. *)
Definition getitem_arg (arr : ndarray) (slice : option NDSlice)
  : result ndarray :=
  match slice with
  | Some NEllipsis => getitem arr [AEllipsis]
  | Some (NInt i) => getitem arr [AInt i]
  | Some (NSlice s) => getitem arr [ASlice s]
  | Some (NTuple items) => getitem arr items
  | None => Ok (newaxis arr)
  end.

(** [read_block(self, block, slice)]; [block[0]] on an empty tuple
    raises IndexError. *)
Definition read_block (self : FileSequenceAdapter) (block : list Z)
           (slice : option NDSlice) : io nat ndarray :=
  if any (tl block) then raise IndexError
  else
    match block with
    | [] => raise IndexError
    | b0 :: _ =>
        arr <- read self (Sel (NSlice (slice2 b0 (b0 + 1)))) ;;
        lift (getitem_arg arr slice)
    end.

End Sequence.

Import Sequence.

(* ================================================================== *)
(** * tiled.client.dataframe *)
(* ================================================================== *)

Module DataFrame.

(** The part of [TableStructure] the client reads; [meta] is the empty
    frame that carries the column names. *)
Record TableStructure : Type := mk_TableStructure
  { npartitions : Z;
    meta : list string }.

(** An in-memory frame: column names and rows. *)
Record frame : Type := mk_frame
  { f_columns : list string;
    f_rows : list (list Z) }.

(** The query of one GET on [links.partition]. *)
Record request : Type := mk_request
  { q_partition : Z;
    q_field : option (list string) }.

(** What the server sends back: a payload, or an error status. *)
Inductive response : Type :=
| Payload (f : frame)
| Status (code : Z).

(** [handle_error(response)]: an error status becomes ClientError. *)
Definition handle_error (r : response) : result frame :=
  match r with
  | Payload f => Ok f
  | Status _ => Raise ClientError
  end.

(** The client: its cached structure and the server it talks to. *)
Record client : Type := mk_client
  { c_structure : TableStructure;
    c_server : request -> response }.

Definition in_columns (c : string) (cols : list string) : bool :=
  existsb (String.eqb c) cols.

(** [meta[columns]]: pandas raises KeyError on a missing column. *)
Definition select_meta (m : list string) (columns : option (list string))
  : result (list string) :=
  match columns with
  | None => Ok m
  | Some cs =>
      if forallb (fun c => in_columns c m) cs then Ok cs else Raise KeyError
  end.

Definition _get_partition (self : client) (partition : Z)
           (columns : option (list string)) : io request frame :=
  let params :=
    match columns with
    | Some (c :: cs) => mk_request partition (Some (c :: cs))
    | _ => mk_request partition None
    end in
  ([params], handle_error (c_server self params)).

(** [dask.delayed(self._get_partition)(partition, columns)]: a call
    that has not run yet. *)
Record delayed : Type := mk_delayed
  { d_partition : Z;
    d_columns : option (list string) }.

(** The lazy frame built by [dask.dataframe.from_delayed]. *)
Record dask_dataframe : Type := mk_dask_dataframe
  { dd_tasks : list delayed;
    dd_meta : list string;
    dd_divisions : list (option Z) }.

(** [_DaskDataFrameClient.read_partition] *)
Definition read_partition (self : client) (partition : Z)
           (columns : option (list string)) : result dask_dataframe :=
  let structure := c_structure self in
  let npartitions := npartitions structure in
  if negb ((0 <=? partition) && (partition <? npartitions))
  then Raise IndexError
  else
    m <~ select_meta (meta structure) columns ;;
    Ok (mk_dask_dataframe
          [mk_delayed partition columns]
          m
          (repeat None (Z.to_nat (1 + npartitions)))).

(** [.compute()]: run the delayed calls in order and concatenate. *)
Fixpoint run_tasks (self : client) (ts : list delayed)
  : io request (list (list Z)) :=
  match ts with
  | [] => ret []
  | t :: ts' =>
      f <- _get_partition self (d_partition t) (d_columns t) ;;
      rest <- run_tasks self ts' ;;
      ret (f_rows f ++ rest)
  end.

Definition compute (self : client) (ddf : dask_dataframe)
  : io request frame :=
  rows <- run_tasks self (dd_tasks ddf) ;;
  ret (mk_frame (dd_meta ddf) rows).

(** [DataFrameClient.read_partition] *)
Definition DataFrameClient_read_partition (self : client) (partition : Z)
           (columns : option (list string)) : io request frame :=
  ddf <- lift (read_partition self partition columns) ;;
  compute self ddf.

(** [frame[columns]] as pandas selects labels: every requested label
    brings all the columns that carry it; a label no column carries
    raises KeyError. *)
Definition getitem_columns (m : list string) (cs : list string)
  : result (list string) :=
  if forallb (fun c => in_columns c m) cs
  then Ok (flat_map (fun c => filter (String.eqb c) m) cs)
  else Raise KeyError.

(** [_DaskDataFrameClient.read]: one delayed fetch per partition of
    [range(structure.npartitions)], keyed by partition. *)
Definition read (self : client) (columns : option (list string))
  : result dask_dataframe :=
  let structure := c_structure self in
  let dask_tasks :=
    map (fun partition => mk_delayed (Z.of_nat partition) columns)
        (seq 0 (Z.to_nat (npartitions structure))) in
  m <~ select_meta (meta structure) columns ;;
  let ddf :=
    mk_dask_dataframe dask_tasks m
      (repeat None (Z.to_nat (1 + npartitions structure))) in
  match columns with
  | None => Ok ddf
  | Some cs =>
      m' <~ getitem_columns (dd_meta ddf) cs ;;
      Ok (mk_dask_dataframe (dd_tasks ddf) m' (dd_divisions ddf))
  end.

(** [s.endswith("/")] *)
Fixpoint endswith_slash (s : string) : bool :=
  match s with
  | EmptyString => false
  | String c EmptyString => Ascii.eqb c "/"%char
  | String _ s' => endswith_slash s'
  end.

(** [s[:-1]] *)
Fixpoint drop_last (s : string) : string :=
  match s with
  | EmptyString => EmptyString
  | String _ EmptyString => EmptyString
  | String c s' => String c (drop_last s')
  end.

(** The server's answer to the GET of [__getitem__]: the JSON content
    of the child node, or an error status. *)
Inductive column_response : Type :=
| Content (data : string)
| ErrorStatus (status_code : Z).

(** What [__getitem__] uses of the client: [item["links"]["self"]] and
    the server behind [context.http_client]. *)
Record column_client : Type := mk_column_client
  { links_self : string;
    http_get : string -> column_response }.

(** [__getitem__(self, column)]: the URL requested is logged; a 404
    becomes KeyError, any other error is raised as it came. *)
Definition __getitem__ (self : column_client) (column : string)
  : io string string :=
  let self_link := links_self self in
  let self_link :=
    if endswith_slash self_link then drop_last self_link else self_link in
  let url := (self_link ++ "/" ++ column)%string in
  match http_get self url with
  | Content data => ([url], Ok data)
  | ErrorStatus status_code =>
      ([url], Raise (if status_code =? 404 then KeyError else ClientError))
  end.

End DataFrame.

(* ================================================================== *)
(** * tiled.server.settings *)
(* ================================================================== *)

Module ServerSettings.

Section Cache.

(** The process environment and what [Settings()] does with it:
    pydantic reads the environment when the object is created, and
    returns the object or raises on a value it cannot validate. *)
Variable Env : Type.
Variable Settings : Type.
Variable Settings_new : Env -> result Settings.

(** The process: its environment, the memo table of [functools.cache]
    for the nullary [get_settings], and how many [Settings] objects
    have been built. *)
Record process : Type := mk_process
  { environ : Env;
    memo : option Settings;
    loads : nat }.

Definition start (e : Env) : process := mk_process e None 0.

(** [@cache def get_settings(): return Settings()].  The table is
    filled when the call returns; a call that raises leaves it empty. *)
Definition get_settings (p : process) : result Settings * process :=
  match memo p with
  | Some s => (Ok s, p)
  | None =>
      match Settings_new (environ p) with
      | Ok s => (Ok s, mk_process (environ p) (Some s) (S (loads p)))
      | Raise e => (Raise e, p)
      end
  end.

(** What the rest of the process may do between two calls. *)
Inductive action : Type :=
| Call
| Setenv (e : Env).

(** Run a sequence of actions; the outcomes of the calls are collected
    in order. *)
Fixpoint run (acts : list action) (p : process)
  : list (result Settings) * process :=
  match acts with
  | [] => ([], p)
  | Call :: acts' =>
      let (r, p') := get_settings p in
      let (rs, p'') := run acts' p' in
      (r :: rs, p'')
  | Setenv e :: acts' =>
      run acts' (mk_process e (memo p) (loads p))
  end.

End Cache.

Arguments mk_process {Env Settings} environ memo loads.
Arguments environ {Env Settings} p.
Arguments memo {Env Settings} p.
Arguments loads {Env Settings} p.
Arguments start {Env Settings} e.
Arguments get_settings {Env Settings} Settings_new p.
Arguments Call {Env}.
Arguments Setenv {Env} e.
Arguments run {Env Settings} Settings_new acts p.

(** [os.getenv(key, default)], the environment given as a lookup. *)
Definition getenv (environ : string -> option string) (key default : string)
  : string :=
  match environ key with
  | Some v => v
  | None => default
  end.

(** [s.split(sep)] for a separator of one character. *)
Fixpoint split (sep : Ascii.ascii) (s : string) : list string :=
  match s with
  | EmptyString => [EmptyString]
  | String c s' =>
      if Ascii.eqb c sep then EmptyString :: split sep s'
      else
        match split sep s' with
        | piece :: pieces => String c piece :: pieces
        | [] => [String c EmptyString]
        end
  end.

(** The class-body value of [Settings.secret_keys]; [token_hex] is the
    value [secrets.token_hex(32)] returned. *)
Definition secret_keys (environ : string -> option string)
           (token_hex : string) : list string :=
  split ";"%char (getenv environ "TILED_SERVER_SECRET_KEYS"%string token_hex).

End ServerSettings.

(* ================================================================== *)
(** * Reference notions and sample data *)
(* ================================================================== *)

(** The files the leading selector alone designates, in loading order. *)
Definition leading_files (fs : files) (left_axis : axis_index) : list nat :=
  let n := length (slabs fs) in
  match left_axis with
  | AInt i => match norm_index n i with Some j => [j] | None => [] end
  | ASlice s => match slice_indices s n with Ok idxs => idxs | Raise _ => [] end
  | AEllipsis => seq 0 n
  end.

(** A non-tuple selector as an [NDSlice]. *)
Definition of_axis (x : axis_index) : NDSlice :=
  match x with
  | AInt i => NInt i
  | ASlice s => NSlice s
  | AEllipsis => NEllipsis
  end.

(** Whether the type of the argument is one [read] has a branch for. *)
Definition supported_type (slice : slice_arg) : bool :=
  match slice with
  | Sel _ => true
  | PyNone | PyOther _ => false
  end.

(** The value a call returned, as its elements; nothing if it raised. *)
Definition value_data (m : io nat ndarray) : list Z :=
  match outcome m with
  | Ok a => data a
  | Raise _ => []
  end.

(** The shape the chunk grid of a structure declares for the block at
    index [block]: along each dimension, the length of the chunk with
    that index. *)
Definition chunk_shape (st : ArrayStructure) (block : list nat) : list nat :=
  map (fun p => nth (snd p) (fst p) 0%nat) (combine (chunks st) block).

(** The block index [(i, 0, ..., 0)] of file [i]. *)
Definition file_block (fs : files) (i : nat) : list nat :=
  i :: repeat 0%nat (length (slab_shape fs)).

(** Whether a character occurs in a string. *)
Fixpoint occurs (c : Ascii.ascii) (s : string) : bool :=
  match s with
  | EmptyString => false
  | String c' s' => Ascii.eqb c' c || occurs c s'
  end.

(** A bound of a slice with a positive step, once shifted and clamped. *)
Definition clamp_bound (n : nat) (v : Z) : Z :=
  if v <? 0 then Z.max (v + Z.of_nat n) 0 else Z.min v (Z.of_nat n).

(** Three files, each holding a 2x2 slab. *)
Definition three_files : files :=
  mk_files uint8 [2%nat; 2%nat] [[1; 2; 3; 4]; [5; 6; 7; 8]; [9; 10; 11; 12]].

Definition three_adapter : FileSequenceAdapter :=
  mk_adapter three_files
    (mk_ArrayStructure uint8
       [[1%nat; 1%nat; 1%nat]; [2%nat]; [2%nat]]
       [3%nat; 2%nat; 2%nat]).

(** A table of three partitions behind a server that answers every
    partition request with one row. *)
Definition three_partitions : DataFrame.client :=
  DataFrame.mk_client
    (DataFrame.mk_TableStructure 3 ["A"%string; "B"%string])
    (fun q => DataFrame.Payload
                (DataFrame.mk_frame ["A"%string; "B"%string]
                                    [[DataFrame.q_partition q; 0]])).

Ltac case_getitem :=
  match goal with
  | |- context [getitem ?a ?k] => destruct (getitem a k)
  end.

(* ================================================================== *)
(** * Facts about Python indexing *)
(* ================================================================== *)

Section SliceFacts.

Lemma norm_index_in_range (n : nat) (i : Z) :
  0 <= i < Z.of_nat n -> norm_index n i = Some (Z.to_nat i).
Proof.
  intros H. unfold norm_index.
  destruct (Z.ltb_spec i 0); [lia|].
  destruct (Z.leb_spec 0 i); [|lia].
  destruct (Z.ltb_spec i (Z.of_nat n)); [reflexivity|lia].
Qed.

Lemma norm_index_lt (n : nat) (i : Z) (j : nat) :
  norm_index n i = Some j -> (j < n)%nat.
Proof.
  unfold norm_index.
  destruct (Z.ltb_spec i 0);
    match goal with
    | |- context [?a && ?b] =>
        destruct (andb a b) eqn:E; [|discriminate]
    end;
    apply andb_true_iff in E; destruct E as [E1 E2];
    apply Z.leb_le in E1; apply Z.ltb_lt in E2;
    intros [= <-]; lia.
Qed.

Lemma map_affine_seq (a : Z) (n s : nat) :
  0 <= a ->
  map (fun k => Z.to_nat (a + Z.of_nat k * 1)) (seq s n)
  = seq (Z.to_nat a + s) n.
Proof.
  intros Ha. revert s. induction n as [|n IH]; intros s; simpl.
  - reflexivity.
  - f_equal; [lia|]. rewrite IH. f_equal. lia.
Qed.

(** A contiguous range inside the sequence selects positions
    [a .. b-1]. *)
Lemma slice_indices_range (n : nat) (a b : Z) :
  0 <= a <= b -> b <= Z.of_nat n ->
  slice_indices (slice2 a b) n
  = Ok (seq (Z.to_nat a) (Z.to_nat (b - a))).
Proof.
  intros Hab Hb. unfold slice_indices, slice2. cbn -[Z.div Z.mul Z.add Z.sub Z.of_nat].
  destruct (Z.ltb_spec a 0); [lia|].
  destruct (Z.ltb_spec b 0); [lia|].
  rewrite !Z.min_l by lia.
  destruct (Z.ltb_spec a b).
  - rewrite Z.div_1_r.
    replace (b - a - 1 + 1) with (b - a) by lia.
    rewrite map_affine_seq by lia. do 2 f_equal. lia.
  - replace (b - a) with 0 by lia. reflexivity.
Qed.

Lemma slice_indices_all (n : nat) :
  slice_indices slice_all n = Ok (seq 0 n).
Proof.
  unfold slice_indices, slice_all. cbn -[Z.div Z.mul Z.add Z.sub Z.of_nat].
  destruct (Z.ltb_spec 0 (Z.of_nat n)).
  - rewrite Z.div_1_r.
    replace (Z.of_nat n - 0 - 1 + 1) with (Z.of_nat n) by lia.
    rewrite map_affine_seq by lia. rewrite Nat2Z.id. reflexivity.
  - replace n with 0%nat by lia. reflexivity.
Qed.

Lemma slice_indices_one (n : nat) (i : Z) :
  0 <= i < Z.of_nat n ->
  slice_indices (slice2 i (i + 1)) n = Ok [Z.to_nat i].
Proof.
  intros H. rewrite slice_indices_range by lia.
  replace (i + 1 - i) with 1 by lia. reflexivity.
Qed.

(** Every selected position exists in the sequence. *)
Lemma slice_indices_bounded (s : pyslice) (n : nat) (idxs : list nat) :
  slice_indices s n = Ok idxs -> Forall (fun j => (j < n)%nat) idxs.
Proof.
  unfold slice_indices. cbv zeta.
  set (step := match sl_step s with Some k => k | None => 1 end).
  destruct (Z.eqb_spec step 0) as [|Hstep]; [discriminate|].
  set (len := Z.of_nat n).
  assert (Hlen : 0 <= len) by (subst len; lia).
  destruct (Z.ltb_spec step 0) as [Hneg|Hpos].
  - (* negative step: start <= len - 1 and -1 <= stop *)
    set (start := match sl_start s with
                  | Some v => if v <? 0 then Z.max (v + len) (-1)
                              else Z.min v (len - 1)
                  | None => len - 1 end).
    set (stop := match sl_stop s with
                 | Some v => if v <? 0 then Z.max (v + len) (-1)
                             else Z.min v (len - 1)
                 | None => -1 end).
    assert (Hstart : start <= len - 1).
    { subst start. destruct (sl_start s) as [v|]; [|lia].
      destruct (Z.ltb_spec v 0); lia. }
    assert (Hstop : -1 <= stop).
    { subst stop. destruct (sl_stop s) as [v|]; [|lia].
      destruct (Z.ltb_spec v 0); lia. }
    destruct (Z.ltb_spec stop start) as [Hlt|];
      [|intros [= <-]; constructor].
    intros [= <-]. apply Forall_forall. intros j Hj.
    apply in_map_iff in Hj. destruct Hj as [k [<- Hk]].
    apply in_seq in Hk.
    set (q := (start - stop - 1) / (- step)) in *.
    assert (Hq : q * (- step) <= start - stop - 1).
    { subst q. rewrite Z.mul_comm. apply Z.mul_div_le. lia. }
    assert (Hq0 : 0 <= q) by (subst q; apply Z.div_pos; lia).
    assert (Hk' : Z.of_nat k <= q) by lia.
    assert (Z.of_nat k * (- step) <= q * (- step)) by nia.
    lia.
  - (* positive step: 0 <= start and stop <= len *)
    assert (Hstep' : 0 < step) by lia.
    set (start := match sl_start s with
                  | Some v => if v <? 0 then Z.max (v + len) 0
                              else Z.min v len
                  | None => 0 end).
    set (stop := match sl_stop s with
                 | Some v => if v <? 0 then Z.max (v + len) 0
                             else Z.min v len
                 | None => len end).
    assert (Hstart : 0 <= start).
    { subst start. destruct (sl_start s) as [v|]; [|lia].
      destruct (Z.ltb_spec v 0); lia. }
    assert (Hstop : stop <= len).
    { subst stop. destruct (sl_stop s) as [v|]; [|lia].
      destruct (Z.ltb_spec v 0); lia. }
    destruct (Z.ltb_spec start stop) as [Hlt|];
      [|intros [= <-]; constructor].
    intros [= <-]. apply Forall_forall. intros j Hj.
    apply in_map_iff in Hj. destruct Hj as [k [<- Hk]].
    apply in_seq in Hk.
    set (q := (stop - start - 1) / step) in *.
    assert (Hq : q * step <= stop - start - 1).
    { subst q. rewrite Z.mul_comm. apply Z.mul_div_le. lia. }
    assert (Hq0 : 0 <= q) by (subst q; apply Z.div_pos; lia).
    assert (Hk' : Z.of_nat k <= q) by lia.
    assert (Z.of_nat k * step <= q * step) by nia.
    lia.
Qed.

End SliceFacts.

(* ================================================================== *)
(** * Facts about ndarray indexing *)
(* ================================================================== *)

Section ChunkFacts.

Lemma flat_map_agree {A B} (f g : A -> list B) (l : list A) :
  (forall a, In a l -> f a = g a) -> flat_map f l = flat_map g l.
Proof.
  induction l as [|a l IH]; intros H; [reflexivity|].
  simpl. rewrite H by now left. rewrite IH; [reflexivity|].
  intros b Hb. apply H. now right.
Qed.

Lemma chunk_succ (sz j : nat) (d : list Z) :
  chunk sz (S j) d = chunk sz j (skipn sz d).
Proof.
  unfold chunk. rewrite skipn_skipn. do 2 f_equal. simpl. lia.
Qed.

Lemma chunk_length (sz n j : nat) (d : list Z) :
  length d = (n * sz)%nat -> (j < n)%nat -> length (chunk sz j d) = sz.
Proof.
  intros Hd Hj. unfold chunk. rewrite length_firstn, length_skipn. nia.
Qed.

(** The blocks of a buffer, read in order, give the buffer back. *)
Lemma flat_map_chunk_seq (sz n : nat) (d : list Z) :
  length d = (n * sz)%nat ->
  flat_map (fun j => chunk sz j d) (seq 0 n) = d.
Proof.
  revert d. induction n as [|n IH]; intros d Hd.
  - destruct d; [reflexivity|discriminate].
  - rewrite <- cons_seq, <- seq_shift. simpl flat_map.
    rewrite flat_map_concat_map, map_map, <- flat_map_concat_map.
    rewrite (flat_map_ext _ (fun j => chunk sz j (skipn sz d)))
      by (intros; apply chunk_succ).
    rewrite IH by (rewrite length_skipn; lia).
    unfold chunk. simpl. apply firstn_skipn.
Qed.

(** Block [j] of the concatenation of equally long buffers is the
    [j]-th buffer. *)
Lemma chunk_concat (sz : nat) (l : list (list Z)) (j : nat) :
  Forall (fun d => length d = sz) l -> (j < length l)%nat ->
  chunk sz j (concat l) = nth j l [].
Proof.
  intros Hl. revert j. induction Hl as [|d l Hd Hl IH]; intros j Hj.
  - simpl in Hj. lia.
  - subst sz. destruct j as [|j].
    + unfold chunk. simpl.
      rewrite firstn_app, firstn_all, Nat.sub_diag. simpl.
      apply app_nil_r.
    + rewrite chunk_succ. simpl concat.
      rewrite skipn_app, skipn_all, Nat.sub_diag. simpl.
      apply IH. simpl in Hj. lia.
Qed.

Lemma flat_map_nth_seq (l : list (list Z)) :
  flat_map (fun j => nth j l []) (seq 0 (length l)) = concat l.
Proof.
  induction l as [|d l IH]; [reflexivity|].
  simpl length. rewrite <- cons_seq, <- seq_shift. simpl.
  rewrite flat_map_concat_map, map_map, <- flat_map_concat_map.
  now rewrite IH.
Qed.

Lemma length_concat_uniform (sz : nat) (l : list (list Z)) :
  Forall (fun d => length d = sz) l ->
  length (concat l) = (length l * sz)%nat.
Proof.
  induction 1 as [|d l Hd Hl IH]; [reflexivity|].
  simpl. rewrite length_app, IH, Hd. reflexivity.
Qed.

Lemma length_flat_map_uniform (sz : nat) (f : nat -> list Z)
      (idxs : list nat) :
  Forall (fun j => length (f j) = sz) idxs ->
  length (flat_map f idxs) = (length idxs * sz)%nat.
Proof.
  induction 1 as [|j l Hj Hl IH]; [reflexivity|].
  simpl. rewrite length_app, IH, Hj. reflexivity.
Qed.

End ChunkFacts.

Section IndexFacts.

(** Selecting every axis in full leaves the shape alone ... *)
Lemma index_shape_full (sh : list nat) :
  index_shape sh (repeat full (length sh)) = Ok sh.
Proof.
  induction sh as [|n sh IH]; [reflexivity|].
  cbn -[slice_indices]. rewrite slice_indices_all.
  cbn -[slice_indices]. fold full. rewrite IH. simpl.
  now rewrite length_seq.
Qed.

(** ... and the elements too. *)
Lemma index_data_full (sh : list nat) (d : list Z) :
  length d = size sh ->
  index_data sh (repeat full (length sh)) d = d.
Proof.
  revert d. induction sh as [|n sh IH]; intros d Hd; [reflexivity|].
  cbn -[slice_indices size]. rewrite slice_indices_all. fold full.
  rewrite (flat_map_agree _ (fun j => chunk (size sh) j d)).
  - apply flat_map_chunk_seq. exact Hd.
  - intros j Hj. apply in_seq in Hj. apply IH.
    apply chunk_length with (n := n); [exact Hd|lia].
Qed.

Lemma expand_ellipsis (ndim : nat) :
  expand ndim [AEllipsis] = Ok (repeat full ndim).
Proof.
  unfold expand. simpl. rewrite Nat.sub_0_r, !app_nil_r. reflexivity.
Qed.

(** [a[...]] is [a]. *)
Lemma getitem_ellipsis (a : ndarray) :
  wf a -> getitem a [AEllipsis] = Ok a.
Proof.
  intros Ha. unfold getitem. rewrite expand_ellipsis. simpl.
  rewrite index_shape_full. simpl.
  rewrite index_data_full by exact Ha. now destruct a.
Qed.

(** A leading int consumes the leading axis. *)
Lemma expand_int (ndim : nat) (i : Z) (key : list axis_index) :
  expand (S ndim) (AInt i :: key) = rmap (cons (DInt i)) (expand ndim key).
Proof.
  unfold expand, n_ellipsis, n_explicit. simpl filter. simpl length.
  destruct (Nat.ltb _ _); [reflexivity|].
  change (S ndim <? S ?m)%nat with (ndim <? m)%nat.
  destruct (Nat.ltb _ _); reflexivity.
Qed.

End IndexFacts.

(* ================================================================== *)
(** * The file-sequence adapter *)
(* ================================================================== *)

Section LoaderFacts.

Variable fs : files.
Local Abbreviation N := (length (slabs fs)).

Lemma load_int (i : Z) :
  0 <= i < Z.of_nat N ->
  _load_from_files fs (LInt i)
  = ([Z.to_nat i], Ok (newaxis (slab fs (Z.to_nat i)))).
Proof.
  intros H. unfold _load_from_files.
  now rewrite norm_index_in_range.
Qed.

Lemma load_all :
  _load_from_files fs (LSlice slice_all) = (seq 0 N, Ok (stacked fs)).
Proof.
  unfold _load_from_files. rewrite slice_indices_all.
  unfold stacked. rewrite length_seq.
  now rewrite flat_map_nth_seq.
Qed.

Lemma skipn_nth_cons (l : list (list Z)) (a : nat) :
  (a < length l)%nat -> skipn a l = nth a l [] :: skipn (S a) l.
Proof.
  revert a. induction l as [|d l IH]; intros a H; [simpl in H; lia|].
  destruct a as [|a]; [reflexivity|].
  simpl in H. change (skipn a l = nth a l [] :: skipn (S a) l).
  apply IH. lia.
Qed.

(** Reading the slabs at positions [a, a+1, ..] one by one is reading
    the sub-list that starts at [a]. *)
Lemma flat_map_nth_range (l : list (list Z)) (a k : nat) :
  (a + k <= length l)%nat ->
  flat_map (fun j => nth j l []) (seq a k)
  = concat (firstn k (skipn a l)).
Proof.
  revert a. induction k as [|k IH]; intros a H; [reflexivity|].
  rewrite <- cons_seq. cbn [flat_map].
  rewrite IH by lia.
  rewrite (skipn_nth_cons l a) by lia. reflexivity.
Qed.

Lemma load_range (a b : Z) :
  0 <= a <= b -> b <= Z.of_nat N ->
  _load_from_files fs (LSlice (slice2 a b))
  = (seq (Z.to_nat a) (Z.to_nat (b - a)),
     Ok (mk_ndarray (slab_dtype fs)
                    (Z.to_nat (b - a) :: slab_shape fs)
                    (concat (firstn (Z.to_nat (b - a))
                                    (skipn (Z.to_nat a) (slabs fs)))))).
Proof.
  intros Hab Hb. unfold _load_from_files.
  rewrite slice_indices_range by assumption.
  rewrite length_seq, flat_map_nth_range by lia.
  reflexivity.
Qed.

Lemma expand_raises_IndexError (ndim : nat) (key : list axis_index) e :
  expand ndim key = Raise e -> e = IndexError.
Proof.
  unfold expand.
  destruct (Nat.ltb 1 _); [now intros [= <-]|].
  destruct (Nat.ltb ndim _); [now intros [= <-]|discriminate].
Qed.

Hypothesis Hwf : wf_files fs.

(** A leading int on the stacked array picks one slab; the rest of the
    key then applies to that slab. *)
Lemma getitem_stacked_int (i : Z) (j : nat) (key : list axis_index) :
  norm_index N i = Some j ->
  getitem (stacked fs) (AInt i :: key) = getitem (slab fs j) key.
Proof.
  intros Hi. unfold getitem. cbn [shape stacked slab length].
  rewrite expand_int.
  destruct (expand (length (slab_shape fs)) key) as [dk|e];
    [|reflexivity].
  cbn -[size]. rewrite Hi.
  destruct (index_shape (slab_shape fs) dk); [|reflexivity].
  cbn -[size]. do 2 f_equal. f_equal.
  apply chunk_concat; [exact Hwf|].
  eapply norm_index_lt; eassumption.
Qed.

Lemma getitem_stacked_int_out (i : Z) (key : list axis_index) :
  norm_index N i = None ->
  getitem (stacked fs) (AInt i :: key) = Raise IndexError.
Proof.
  intros Hi. unfold getitem. cbn [shape stacked slab length].
  rewrite expand_int.
  destruct (expand (length (slab_shape fs)) key) as [dk|e] eqn:E.
  - cbn -[size]. now rewrite Hi.
  - apply expand_raises_IndexError in E. now subst e.
Qed.

(** A leading slice on the stacked array stacks the selected slabs. *)
Lemma getitem_stacked_slice (s : pyslice) :
  getitem (stacked fs) [ASlice s]
  = idxs <~ slice_indices s N ;;
    Ok (mk_ndarray (slab_dtype fs) (length idxs :: slab_shape fs)
                   (flat_map (fun j => nth j (slabs fs) []) idxs)).
Proof.
  unfold getitem, expand. cbn -[slice_indices size].
  rewrite Nat.sub_0_r.
  destruct (slice_indices s N) as [idxs|e] eqn:E; [|reflexivity].
  cbn -[slice_indices size].
  rewrite index_shape_full. cbn -[slice_indices size].
  do 2 f_equal. apply flat_map_agree. intros j Hj.
  assert (j < N)%nat.
  { apply slice_indices_bounded in E.
    rewrite Forall_forall in E. now apply E. }
  rewrite chunk_concat by assumption.
  apply index_data_full.
  unfold wf_files in Hwf. rewrite Forall_forall in Hwf.
  apply Hwf, nth_In. assumption.
Qed.

End LoaderFacts.

Section ReadFacts.

Variable self : FileSequenceAdapter.
Local Abbreviation fs := (filepaths self).
Local Abbreviation N := (length (slabs (filepaths self))).

Lemma wf_files_nth (j : nat) :
  wf_files fs -> (j < N)%nat ->
  length (nth j (slabs fs) []) = size (slab_shape fs).
Proof.
  intros Hwf Hj. unfold wf_files in Hwf. rewrite Forall_forall in Hwf.
  apply Hwf, nth_In. exact Hj.
Qed.

Lemma any_all_zero (zs : list Z) :
  Forall (fun z => z = 0) zs -> any zs = false.
Proof.
  induction 1 as [|z zs Hz _ IH]; [reflexivity|].
  simpl. subst z. exact IH.
Qed.

Lemma any_some_nonzero (zs : list Z) :
  Exists (fun z => z <> 0) zs -> any zs = true.
Proof.
  induction 1 as [z zs Hz|z zs _ IH]; simpl.
  - destruct (Z.eqb_spec z 0); [contradiction|reflexivity].
  - rewrite IH. apply orb_true_r.
Qed.

Lemma read_int (i : Z) :
  0 <= i < Z.of_nat N ->
  read self (Sel (NInt i)) = ([Z.to_nat i], Ok (slab fs (Z.to_nat i))).
Proof.
  intros H. cbn [read read_axis]. rewrite load_int by exact H. reflexivity.
Qed.

Lemma read_one_file_slice (i : Z) :
  0 <= i < Z.of_nat N ->
  read self (Sel (NSlice (slice2 i (i + 1))))
  = ([Z.to_nat i], Ok (newaxis (slab fs (Z.to_nat i)))).
Proof.
  intros H. cbn [read read_axis]. unfold _load_from_files.
  rewrite slice_indices_one by exact H.
  cbn [flat_map length]. rewrite app_nil_r. reflexivity.
Qed.

(** C3.  For an adapter over N files and every integer i in [0, N),
    read(i) opens exactly the file at position i and returns its slab,
    an array of the slab shape S (the leading dimension of length 1 that
    the loader adds is dropped). *)
Theorem read_int_loads_exactly_that_file (i : Z) :
  0 <= i < Z.of_nat N ->
  read self (Sel (NInt i)) = ([Z.to_nat i], Ok (slab fs (Z.to_nat i)))
  /\ shape (slab fs (Z.to_nat i)) = slab_shape fs
  /\ data (slab fs (Z.to_nat i)) = nth (Z.to_nat i) (slabs fs) [].
Proof.
  intros H. split; [apply read_int; exact H|]. split; reflexivity.
Qed.

(** C4.  For every contiguous range a..b with 0 <= a <= b <= N,
    read(slice(a, b)) opens exactly the files a, ..., b-1, in order, and
    returns their slabs stacked: an array of shape (b-a, *S) holding the
    contiguous sub-list of slabs. *)
Theorem read_range_loads_exactly_the_range (a b : Z) :
  0 <= a <= b -> b <= Z.of_nat N ->
  exists arr,
    read self (Sel (NSlice (slice2 a b)))
    = (seq (Z.to_nat a) (Z.to_nat (b - a)), Ok arr)
    /\ shape arr = Z.to_nat (b - a) :: slab_shape fs
    /\ data arr
       = concat (firstn (Z.to_nat (b - a)) (skipn (Z.to_nat a) (slabs fs)))
    /\ Forall (fun j => Z.to_nat a <= j < Z.to_nat b)%nat
              (log (read self (Sel (NSlice (slice2 a b))))).
Proof.
  intros Hab Hb. cbn [read read_axis].
  rewrite load_range by assumption.
  eexists. split; [reflexivity|]. split; [reflexivity|].
  split; [reflexivity|].
  apply Forall_forall. intros j Hj. apply in_seq in Hj. lia.
Qed.

(** C1 (amended).  For i in [0, N) and an all-zero trailing block index,
    read_block((i, 0, ..., 0)) with the default slice opens only file i
    and returns its slab with the leading dimension of length 1 kept, an
    array of shape (1, *S); this is read(slice(i, i+1)), and squeezing
    its leading axis gives read(i). *)
Theorem read_block_keeps_the_leading_axis (i : Z) (zs : list Z) :
  wf_files fs -> 0 <= i < Z.of_nat N -> Forall (fun z => z = 0) zs ->
  read_block self (i :: zs) (Some NEllipsis)
  = ([Z.to_nat i], Ok (newaxis (slab fs (Z.to_nat i))))
  /\ shape (newaxis (slab fs (Z.to_nat i))) = 1%nat :: slab_shape fs
  /\ read_block self (i :: zs) (Some NEllipsis)
     = read self (Sel (NSlice (slice2 i (i + 1))))
  /\ (arr <- read_block self (i :: zs) (Some NEllipsis) ;;
      lift (squeeze0 arr))
     = read self (Sel (NInt i)).
Proof.
  intros Hwf Hi Hzs.
  assert (Hblock : read_block self (i :: zs) (Some NEllipsis)
                   = ([Z.to_nat i], Ok (newaxis (slab fs (Z.to_nat i))))).
  { unfold read_block. cbn [tl]. rewrite any_all_zero by exact Hzs.
    rewrite read_one_file_slice by exact Hi.
    cbn [bind getitem_arg lift].
    rewrite getitem_ellipsis; [reflexivity|].
    unfold wf, newaxis, slab. cbn [data shape].
    rewrite wf_files_nth by (assumption || lia).
    change (size (1%nat :: slab_shape fs))
      with (1 * size (slab_shape fs))%nat. lia. }
  rewrite Hblock, read_one_file_slice, read_int by exact Hi.
  repeat split; reflexivity.
Qed.

(** C5.  A block index with a nonzero entry in a trailing position makes
    read_block raise IndexError, whatever the leading index and the slice
    argument are, and before any file is opened. *)
Theorem read_block_nonzero_trailing_raises
        (block : list Z) (slice : option NDSlice) :
  Exists (fun z => z <> 0) (tl block) ->
  read_block self block slice = ([], Raise IndexError).
Proof.
  intros H. unfold read_block. now rewrite any_some_nonzero.
Qed.

(** C8.  An argument whose type is none of Ellipsis, int, slice or tuple
    makes read raise RuntimeError; no file is opened and no default
    selection is substituted. *)
Theorem read_unsupported_type_raises (slice : slice_arg) :
  supported_type slice = false ->
  read self slice = ([], Raise RuntimeError).
Proof.
  destruct slice; [discriminate|reflexivity|reflexivity].
Qed.

(** C10.  Tuples normalise by length: read(()) is read(...), and for a
    single int, slice or Ellipsis s, read((s,)) is read(s). *)
Theorem read_tuple_normalises_by_length :
  read self (Sel (NTuple [])) = read self (Sel NEllipsis)
  /\ forall s : axis_index,
       read self (Sel (NTuple [s])) = read self (Sel (of_axis s)).
Proof.
  split; [reflexivity|]. intros [i|s|]; reflexivity.
Qed.

End ReadFacts.

Section SelectionFacts.

Variable self : FileSequenceAdapter.
Local Abbreviation fs := (filepaths self).
Local Abbreviation N := (length (slabs (filepaths self))).

Lemma wf_stacked : wf_files fs -> wf (stacked fs).
Proof.
  intros Hwf. unfold wf, stacked. cbn [data shape].
  now apply length_concat_uniform.
Qed.

Lemma wf_slab (j : nat) : wf_files fs -> (j < N)%nat -> wf (slab fs j).
Proof.
  intros Hwf Hj. unfold wf, slab. cbn [data shape].
  now apply wf_files_nth.
Qed.

Lemma getitem_nil (a : ndarray) : wf a -> getitem a [] = Ok a.
Proof.
  intros Ha. unfold getitem, expand. cbn -[size].
  rewrite Nat.sub_0_r, index_shape_full. cbn -[size].
  rewrite index_data_full by exact Ha. now destruct a.
Qed.

(** Without trailing selectors, [read] returns exactly what the leading
    selector picks from the stacked array. *)
Lemma read_axis_selects_from_the_stack (left_axis : axis_index) :
  wf_files fs ->
  log (read_axis self left_axis) = leading_files fs left_axis
  /\ outcome (read_axis self left_axis) = getitem (stacked fs) [left_axis].
Proof.
  intros Hwf. destruct left_axis as [i|s|].
  - cbn [read_axis leading_files]. unfold _load_from_files.
    destruct (norm_index N i) as [j|] eqn:Hi.
    + rewrite (getitem_stacked_int fs Hwf i j _ Hi).
      rewrite getitem_nil
        by (apply wf_slab; [exact Hwf|eapply norm_index_lt; eassumption]).
      split; reflexivity.
    + rewrite (getitem_stacked_int_out fs i _ Hi). split; reflexivity.
  - cbn [read_axis leading_files]. unfold _load_from_files.
    rewrite (getitem_stacked_slice fs Hwf).
    destruct (slice_indices s N); split; reflexivity.
  - cbn [read_axis leading_files]. rewrite load_all.
    rewrite getitem_ellipsis by (apply wf_stacked; exact Hwf).
    split; reflexivity.
Qed.

(** The files opened for a tuple with trailing selectors are those of
    its leading selector. *)
Lemma read_tuple_log (left_axis r : axis_index) (rest : list axis_index) :
  log (read self (Sel (NTuple (left_axis :: r :: rest))))
  = log (read_axis self left_axis).
Proof.
  destruct left_axis as [i|s|]; cbn [read read_axis];
    unfold _load_from_files.
  - destruct (norm_index N i) as [j|]; [|reflexivity].
    cbn -[getitem]. case_getitem; reflexivity.
  - destruct (slice_indices s N) as [idxs|e]; [|reflexivity].
    cbn -[getitem]. case_getitem; cbn; now rewrite !app_nil_r.
  - destruct (slice_indices slice_all N) as [idxs|e]; [|reflexivity].
    cbn -[getitem]. case_getitem; cbn; now rewrite !app_nil_r.
Qed.

(** With a leading slice, the trailing selectors are applied to the
    loaded sub-stack as they stand. *)
Lemma read_leading_slice (s : pyslice) (r : axis_index)
      (rest : list axis_index) :
  outcome (read self (Sel (NTuple (ASlice s :: r :: rest))))
  = (arr <~ outcome (read_axis self (ASlice s)) ;;
     rmap atleast_1d (getitem arr (r :: rest))).
Proof.
  cbn [read read_axis]. unfold _load_from_files.
  destruct (slice_indices s N) as [idxs|e]; [|reflexivity].
  cbn -[getitem]. case_getitem; reflexivity.
Qed.

(** C2 (amended).  For a tuple made of a leading selector and at least
    one trailing selector, the files read opens are exactly those the
    leading selector alone designates, the same as for read of the
    leading selector by itself, so trailing selectors never change which
    files are loaded; and when the leading selector is an int or
    Ellipsis the value returned is np.atleast_1d of the whole selection
    applied to the stacked array of shape (N, *S).  A tuple holding the
    leading selector only returns that selection itself. *)
Theorem read_tuple_selects_after_loading
        (left_axis r : axis_index) (rest : list axis_index) :
  wf_files fs ->
  log (read self (Sel (NTuple (left_axis :: r :: rest))))
  = leading_files fs left_axis
  /\ log (read self (Sel (NTuple (left_axis :: r :: rest))))
     = log (read self (Sel (of_axis left_axis)))
  /\ ((forall s, left_axis <> ASlice s) ->
      outcome (read self (Sel (NTuple (left_axis :: r :: rest))))
      = rmap atleast_1d
             (getitem (stacked fs) (left_axis :: r :: rest)))
  /\ outcome (read self (Sel (NTuple [left_axis])))
     = getitem (stacked fs) [left_axis].
Proof.
  intros Hwf.
  destruct (read_axis_selects_from_the_stack left_axis Hwf) as [Hlog Hout].
  assert (Hsame : read self (Sel (of_axis left_axis))
                  = read_axis self left_axis)
    by (destruct left_axis; reflexivity).
  rewrite Hsame, read_tuple_log, Hlog.
  split; [reflexivity|]. split; [reflexivity|]. split; [|exact Hout].
  clear Hlog Hout Hsame.
  intros Hleft. destruct left_axis as [i|s|]; cbn [read].
  - unfold _load_from_files.
    destruct (norm_index N i) as [j|] eqn:Hi.
    + rewrite (getitem_stacked_int fs Hwf i j _ Hi).
      cbn -[getitem]. unfold slab.
      case_getitem; reflexivity.
    + now rewrite (getitem_stacked_int_out fs i _ Hi).
  - now elim (Hleft s).
  - rewrite load_all. cbn -[getitem].
    case_getitem; reflexivity.
Qed.

End SelectionFacts.

Section InitFacts.

Lemma sum_repeat_one (n : nat) : sum (repeat 1%nat n) = n.
Proof.
  induction n as [|n IH]; [reflexivity|]. simpl. now rewrite IH.
Qed.

Lemma sum_singletons (sh : list nat) :
  map sum (map (fun i => [i]) sh) = sh.
Proof.
  induction sh as [|n sh IH]; [reflexivity|].
  simpl. rewrite IH. f_equal. apply Nat.add_0_r.
Qed.

(** C6.  Constructing the adapter over N >= 1 files without a structure
    opens the first file and infers shape (N, *S), one chunk of length 1
    per file along the leading dimension, one chunk spanning each
    trailing dimension in full, and the dtype of the first slab; along
    every dimension the chunk lengths add up to the shape entry. *)
Theorem init_infers_a_covering_structure (fs : files) :
  slabs fs <> [] ->
  exists self,
    __init__ fs None = ([0%nat], Ok self)
    /\ filepaths self = fs
    /\ s_shape (structure self) = length (slabs fs) :: slab_shape fs
    /\ chunks (structure self)
       = repeat 1%nat (length (slabs fs))
         :: map (fun n => [n]) (slab_shape fs)
    /\ data_type (structure self) = slab_dtype fs
    /\ chunks_cover (structure self).
Proof.
  intros Hne. unfold __init__.
  rewrite (load_int fs 0) by (destruct (slabs fs); [contradiction|simpl; lia]).
  cbn [bind ret newaxis slab shape tl hd a_dtype app].
  eexists. split; [reflexivity|].
  cbn [filepaths structure _structure s_shape chunks data_type].
  repeat split.
  unfold chunks_cover. cbn [chunks s_shape map].
  now rewrite sum_repeat_one, sum_singletons.
Qed.

End InitFacts.

Section PartitionFacts.

Import DataFrame.

Variable self : client.
Local Abbreviation n := (npartitions (c_structure self)).

Lemma in_grid_dec (p : Z) :
  negb ((0 <=? p) && (p <? n)) = false <-> 0 <= p < n.
Proof.
  rewrite negb_false_iff, andb_true_iff, Z.leb_le, Z.ltb_lt. reflexivity.
Qed.

Lemma select_meta_raises_KeyError m columns e :
  select_meta m columns = Raise e -> e = KeyError.
Proof.
  unfold select_meta. destruct columns as [cs|]; [|discriminate].
  destruct (forallb _ cs); [discriminate|now intros [= <-]].
Qed.

Lemma handle_error_raises_ClientError r e :
  handle_error r = Raise e -> e = ClientError.
Proof. destruct r; [discriminate|now intros [= <-]]. Qed.

(** Computing a frame of one delayed call sends one request, for the
    partition of that call. *)
Lemma compute_one_task (p : Z) (columns : option (list string))
      (m : list string) (d : list (option Z)) :
  compute self (mk_dask_dataframe [mk_delayed p columns] m d)
  = ([mk_request p match columns with
                   | Some (c :: cs) => Some (c :: cs)
                   | _ => None
                   end],
     rmap (fun f => mk_frame m (f_rows f ++ []))
          (handle_error
             (c_server self
                (mk_request p match columns with
                              | Some (c :: cs) => Some (c :: cs)
                              | _ => None
                              end)))).
Proof.
  unfold compute. cbn [dd_tasks dd_meta run_tasks d_partition d_columns].
  unfold _get_partition.
  destruct columns as [[|c cs]|];
    cbn [bind]; destruct (handle_error _); reflexivity.
Qed.

(** C7.  read_partition(p, columns) raises IndexError exactly when p is
    outside [0, npartitions).  An out-of-range p is rejected before any
    request is sent, also by the client that computes eagerly; an
    in-range p that yields a result yields a frame made of the one
    partition p, and computing it sends exactly one request, for
    partition p. *)
Theorem read_partition_index_error_iff_out_of_grid
        (p : Z) (columns : option (list string)) :
  (read_partition self p columns = Raise IndexError <-> ~ (0 <= p < n))
  /\ (outcome (DataFrameClient_read_partition self p columns) = Raise IndexError
      <-> ~ (0 <= p < n))
  /\ (~ (0 <= p < n) -> log (DataFrameClient_read_partition self p columns) = [])
  /\ (0 <= p < n ->
      forall ddf, read_partition self p columns = Ok ddf ->
        dd_tasks ddf = [mk_delayed p columns]
        /\ map q_partition (log (DataFrameClient_read_partition self p columns)) = [p]).
Proof.
  unfold DataFrameClient_read_partition, read_partition.
  destruct (negb ((0 <=? p) && (p <? n))) eqn:E.
  - assert (Hout : ~ (0 <= p < n)).
    { intros H. apply in_grid_dec in H. congruence. }
    repeat split; try tauto; try reflexivity.
  - assert (Hin : 0 <= p < n) by now apply in_grid_dec.
    destruct (select_meta (meta (c_structure self)) columns) as [m|e] eqn:Em.
    + cbn [rbind lift bind]. rewrite compute_one_task.
      destruct (handle_error _) as [f|e] eqn:Ef;
        [|apply handle_error_raises_ClientError in Ef; subst e];
        cbn [rmap rbind outcome log fst snd map q_partition];
        (split; [split; [discriminate|tauto]|]);
        (split; [split; [discriminate|tauto]|]);
        (split; [tauto|]);
        intros _ ddf [= <-]; split; reflexivity.
    + apply select_meta_raises_KeyError in Em. subst e.
      cbn [rbind lift bind outcome log fst snd].
      repeat split; try discriminate; try tauto.
Qed.

End PartitionFacts.

Section SettingsFacts.

Import ServerSettings.

Variable Env : Type.
Variable Settings : Type.
Variable Settings_new : Env -> result Settings.

Local Abbreviation get := (get_settings Settings_new).
Local Abbreviation runs := (run Settings_new).

(** Once the memo table is filled, every call returns its entry and
    nothing is built again, whatever happens to the environment. *)
Lemma run_memoised (acts : list (action Env)) (p : process Env Settings)
      (s : Settings) :
  memo p = Some s ->
  Forall (fun r => r = Ok s) (fst (runs acts p))
  /\ loads (snd (runs acts p)) = loads p.
Proof.
  revert p. induction acts as [|a acts IH]; intros p Hp.
  - split; [constructor|reflexivity].
  - destruct a as [|e]; cbn [run].
    + unfold get_settings. rewrite Hp.
      specialize (IH p Hp). destruct (runs acts p) as [rs p'].
      cbn [fst snd] in *. destruct IH as [Hrs Hl].
      split; [constructor; [reflexivity|exact Hrs]|exact Hl].
    + apply (IH (mk_process e (memo p) (loads p))). exact Hp.
Qed.

(** From an empty memo table: at most one object is ever built, all
    calls that return agree, and if the first call returns, every call
    returns what it returned. *)
Lemma run_fresh (acts : list (action Env)) (p : process Env Settings) :
  memo p = None -> loads p = 0%nat ->
  (loads (snd (runs acts p)) <= 1)%nat
  /\ (forall s1 s2, In (Ok s1) (fst (runs acts p)) ->
                    In (Ok s2) (fst (runs acts p)) -> s1 = s2)
  /\ (forall s, hd_error (fst (runs acts p)) = Some (Ok s) ->
                Forall (fun r => r = Ok s) (fst (runs acts p))).
Proof.
  revert p. induction acts as [|a acts IH]; intros p Hm Hl.
  - cbn. repeat split; [lia|contradiction|constructor].
  - destruct a as [|e']; cbn [run]; [|apply IH; assumption].
    unfold get_settings. rewrite Hm.
    destruct (Settings_new (environ p)) as [s|e].
    + set (p1 := mk_process (environ p) (Some s) (S (loads p))).
      destruct (run_memoised acts p1 s eq_refl) as [Hrs Hloads].
      destruct (runs acts p1) as [rs p'].
      cbn [fst snd hd_error] in *.
      assert (Hall : Forall (fun r => r = Ok s) (Ok s :: rs))
        by (constructor; [reflexivity|exact Hrs]).
      rewrite Forall_forall in Hall.
      split; [rewrite Hloads; subst p1; cbn; lia|]. split.
      * intros s1 s2 H1 H2. apply Hall in H1, H2. congruence.
      * intros s0 [= <-]. apply Forall_forall. exact Hall.
    + specialize (IH p Hm Hl). destruct (runs acts p) as [rs p'].
      cbn [fst snd hd_error] in *. destruct IH as [Hle [Hag _]].
      split; [exact Hle|]. split.
      * intros s1 s2 [H1|H1] [H2|H2]; try discriminate.
        now apply Hag.
      * intros s0 [=].
Qed.

(** C9.  get_settings is a cached singleton.  In a process that starts
    with an empty memo table, however calls to get_settings are
    interleaved with changes of the environment, every call returns the
    Settings value the first call returned, any two calls return equal
    values, and Settings is built from the environment at most once; in
    any process, a second call right after a call returns the same value
    and builds nothing. *)
Theorem get_settings_is_a_cached_singleton
        (e : Env) (acts : list (action Env)) :
  (forall s, hd_error (fst (runs acts (start e))) = Some (Ok s) ->
             Forall (fun r => r = Ok s) (fst (runs acts (start e))))
  /\ (forall s1 s2, In (Ok s1) (fst (runs acts (start e))) ->
                    In (Ok s2) (fst (runs acts (start e))) -> s1 = s2)
  /\ (loads (snd (runs acts (start e))) <= 1)%nat
  /\ (forall (p : process Env Settings) (s : Settings),
        fst (get p) = Ok s ->
        fst (get (snd (get p))) = Ok s
        /\ loads (snd (get (snd (get p)))) = loads (snd (get p))).
Proof.
  destruct (run_fresh acts (start e) eq_refl eq_refl) as [Hle [Hag Hfirst]].
  split; [exact Hfirst|]. split; [exact Hag|]. split; [exact Hle|].
  intros p s. unfold get_settings.
  destruct (memo p) as [s'|] eqn:Hm; cbn [fst snd].
  - rewrite Hm. intros [= <-]. split; reflexivity.
  - destruct (Settings_new (environ p)) as [s'|e']; cbn [fst snd memo].
    + intros [= <-]. split; reflexivity.
    + discriminate.
Qed.

End SettingsFacts.

(* ================================================================== *)
(** * Worked instances on three 2x2 files *)
(* ================================================================== *)

Lemma wf_three_files : wf_files three_files.
Proof. repeat constructor. Qed.

(** C1 (as stated) fails: on three 2x2 files, read_block((1, 0, 0)) is
    an array of shape (1, 2, 2) while read(1) is an array of shape
    (2, 2), so the two calls do not return equal values. *)
Lemma read_block_is_not_read_int :
  wf_files three_files
  /\ 0 <= 1 < Z.of_nat (length (slabs three_files))
  /\ Forall (fun z => z = 0) [0; 0]
  /\ read_block three_adapter [1; 0; 0] (Some NEllipsis)
     = ([1%nat], Ok (mk_ndarray uint8 [1; 2; 2]%nat [5; 6; 7; 8]))
  /\ read three_adapter (Sel (NInt 1))
     = ([1%nat], Ok (mk_ndarray uint8 [2; 2]%nat [5; 6; 7; 8]))
  /\ read_block three_adapter [1; 0; 0] (Some NEllipsis)
     <> read three_adapter (Sel (NInt 1)).
Proof.
  split; [exact wf_three_files|]. split; [simpl; lia|].
  split; [repeat constructor|].
  split; [reflexivity|]. split; [reflexivity|].
  vm_compute. discriminate.
Qed.

(** C2 (as stated) fails: on three 2x2 files, the selection (0, 1, 0)
    applied to the stacked array is the 0-d value 3, while read returns
    the 1-d array [3] of shape (1,). *)
Lemma read_all_int_tuple_is_not_the_selection :
  wf_files three_files
  /\ getitem (stacked three_files) [AInt 0; AInt 1; AInt 0]
     = Ok (mk_ndarray uint8 [] [3])
  /\ outcome (read three_adapter (Sel (NTuple [AInt 0; AInt 1; AInt 0])))
     = Ok (mk_ndarray uint8 [1%nat] [3])
  /\ outcome (read three_adapter (Sel (NTuple [AInt 0; AInt 1; AInt 0])))
     <> getitem (stacked three_files) [AInt 0; AInt 1; AInt 0].
Proof.
  split; [exact wf_three_files|].
  split; [reflexivity|]. split; [reflexivity|].
  vm_compute. discriminate.
Qed.

(** With a leading slice, [read] hands the trailing selectors to the
    loaded sub-stack as they are, so the first of them indexes the file
    axis: (slice(0, 2), 1) returns the slab of file 1, where the
    selection on the stacked array is row 1 of files 0 and 1. *)
Example read_leading_slice_then_int :
  read three_adapter (Sel (NTuple [ASlice (slice2 0 2); AInt 1]))
  = ([0; 1]%nat, Ok (mk_ndarray uint8 [2; 2]%nat [5; 6; 7; 8]))
  /\ getitem (stacked three_files) [ASlice (slice2 0 2); AInt 1]
     = Ok (mk_ndarray uint8 [2; 2]%nat [3; 4; 7; 8]).
Proof. split; reflexivity. Qed.

(** A leading block index past the last file selects no file. *)
Example read_block_past_the_last_file :
  read_block three_adapter [3; 0; 0] (Some NEllipsis)
  = ([], Ok (mk_ndarray uint8 [0; 2; 2]%nat [])).
Proof. reflexivity. Qed.

Lemma read_block_keeps_the_leading_axis_witness :
  wf_files (filepaths three_adapter)
  /\ 0 <= 1 < Z.of_nat (length (slabs (filepaths three_adapter)))
  /\ Forall (fun z => z = 0) [0; 0]
  /\ read_block three_adapter [1; 0; 0] (Some NEllipsis)
     = ([Z.to_nat 1],
        Ok (newaxis (slab (filepaths three_adapter) (Z.to_nat 1)))).
Proof.
  assert (H1 : wf_files (filepaths three_adapter))
    by (repeat constructor).
  assert (H2 : 0 <= 1 < Z.of_nat (length (slabs (filepaths three_adapter))))
    by (simpl; lia).
  assert (H3 : Forall (fun z => z = 0) [0; 0]) by (repeat constructor).
  split; [exact H1|]. split; [exact H2|]. split; [exact H3|].
  exact (proj1 (read_block_keeps_the_leading_axis
                  three_adapter 1 [0; 0] H1 H2 H3)).
Defined.

Lemma read_tuple_selects_after_loading_witness :
  wf_files (filepaths three_adapter)
  /\ outcome (read three_adapter (Sel (NTuple [AInt 0; AInt 1; AInt 0])))
     = rmap atleast_1d
            (getitem (stacked (filepaths three_adapter))
                     [AInt 0; AInt 1; AInt 0]).
Proof.
  assert (H1 : wf_files (filepaths three_adapter))
    by (repeat constructor).
  split; [exact H1|].
  apply (read_tuple_selects_after_loading
           three_adapter (AInt 0) (AInt 1) [AInt 0] H1).
  intros s. discriminate.
Defined.

Lemma read_int_loads_exactly_that_file_witness :
  0 <= 1 < Z.of_nat (length (slabs (filepaths three_adapter)))
  /\ read three_adapter (Sel (NInt 1))
     = ([Z.to_nat 1], Ok (slab (filepaths three_adapter) (Z.to_nat 1))).
Proof.
  assert (H : 0 <= 1 < Z.of_nat (length (slabs (filepaths three_adapter))))
    by (simpl; lia).
  split; [exact H|].
  exact (proj1 (read_int_loads_exactly_that_file three_adapter 1 H)).
Defined.

Lemma read_range_loads_exactly_the_range_witness :
  0 <= 1 <= 3
  /\ 3 <= Z.of_nat (length (slabs (filepaths three_adapter)))
  /\ exists arr,
       read three_adapter (Sel (NSlice (slice2 1 3)))
       = (seq (Z.to_nat 1) (Z.to_nat (3 - 1)), Ok arr)
       /\ shape arr = Z.to_nat (3 - 1) :: slab_shape (filepaths three_adapter).
Proof.
  assert (H1 : 0 <= 1 <= 3) by lia.
  assert (H2 : 3 <= Z.of_nat (length (slabs (filepaths three_adapter))))
    by (simpl; lia).
  split; [exact H1|]. split; [exact H2|].
  destruct (read_range_loads_exactly_the_range three_adapter 1 3 H1 H2)
    as [arr [Hr [Hs _]]].
  exists arr. split; [exact Hr|exact Hs].
Defined.

Lemma read_block_nonzero_trailing_raises_witness :
  Exists (fun z => z <> 0) (tl [1; 0; 1])
  /\ read_block three_adapter [1; 0; 1] None = ([], Raise IndexError).
Proof.
  assert (H : Exists (fun z => z <> 0) (tl [1; 0; 1]))
    by (simpl; right; left; lia).
  split; [exact H|].
  exact (read_block_nonzero_trailing_raises three_adapter [1; 0; 1] None H).
Defined.

Lemma init_infers_a_covering_structure_witness :
  slabs three_files <> []
  /\ exists self,
       __init__ three_files None = ([0%nat], Ok self)
       /\ s_shape (structure self) = [3; 2; 2]%nat
       /\ chunks (structure self) = [[1; 1; 1]; [2]; [2]]%nat
       /\ chunks_cover (structure self).
Proof.
  assert (H : slabs three_files <> []) by (simpl; discriminate).
  split; [exact H|].
  destruct (init_infers_a_covering_structure three_files H)
    as [self [Hi [_ [Hs [Hc [_ Hcov]]]]]].
  exists self. repeat split; assumption.
Defined.

Lemma read_unsupported_type_raises_witness :
  supported_type PyNone = false
  /\ read three_adapter PyNone = ([], Raise RuntimeError).
Proof.
  assert (H : supported_type PyNone = false) by reflexivity.
  split; [exact H|].
  exact (read_unsupported_type_raises three_adapter PyNone H).
Defined.

(* ================================================================== *)
(** * Further properties of the file-sequence adapter *)
(* ================================================================== *)

Section OneFileSlice.

Lemma slice_indices_unit_step (n : nat) (a b : Z) :
  slice_indices (slice2 a b) n
  = Ok (seq (Z.to_nat (clamp_bound n a))
            (Z.to_nat (clamp_bound n b - clamp_bound n a))).
Proof.
  unfold slice_indices, slice2. cbn [sl_start sl_stop sl_step].
  change (1 =? 0) with false. change (1 <? 0) with false. cbv iota zeta.
  fold (clamp_bound n a). fold (clamp_bound n b).
  assert (Ha : 0 <= clamp_bound n a).
  { unfold clamp_bound. destruct (Z.ltb_spec a 0); lia. }
  destruct (Z.ltb_spec (clamp_bound n a) (clamp_bound n b)) as [H|H].
  - rewrite Z.div_1_r.
    replace (clamp_bound n b - clamp_bound n a - 1 + 1)
      with (clamp_bound n b - clamp_bound n a) by lia.
    rewrite map_affine_seq by exact Ha. do 2 f_equal. lia.
  - replace (Z.to_nat (clamp_bound n b - clamp_bound n a)) with 0%nat by lia.
    reflexivity.
Qed.

(** The positions [seq[i:i+1]] selects: position [i] when it exists, the
    position counted from the end for [i] in [-n, -2], and nothing
    otherwise; [i = -1] selects nothing because the stop bound is 0. *)
Lemma slice_indices_one_cases (n : nat) (i : Z) :
  slice_indices (slice2 i (i + 1)) n
  = Ok (if (0 <=? i) && (i <? Z.of_nat n) then [Z.to_nat i]
        else if (- Z.of_nat n <=? i) && (i <? -1)
             then [Z.to_nat (i + Z.of_nat n)]
             else []).
Proof.
  rewrite slice_indices_unit_step. f_equal. unfold clamp_bound.
  destruct (Z.leb_spec 0 i); destruct (Z.ltb_spec i (Z.of_nat n));
    destruct (Z.leb_spec (- Z.of_nat n) i); destruct (Z.ltb_spec i (-1));
    destruct (Z.ltb_spec i 0); destruct (Z.ltb_spec (i + 1) 0);
    cbn [andb]; try lia.
  all: match goal with
       | |- seq ?a (Z.to_nat ?d) = [?x] =>
           replace (Z.to_nat d) with 1%nat by lia; cbn [seq];
           f_equal; lia
       | |- seq ?a (Z.to_nat ?d) = [] =>
           replace (Z.to_nat d) with 0%nat by lia; reflexivity
       end.
Qed.




Lemma shape_atleast_1d (a : ndarray) : shape (atleast_1d a) <> [].
Proof.
  unfold atleast_1d. destruct (shape a) eqn:E; cbn; [discriminate|].
  rewrite E. discriminate.
Qed.

Lemma n_explicit_no_ellipsis (key : list axis_index) :
  n_ellipsis key = 0%nat -> n_explicit key = length key.
Proof.
  unfold n_ellipsis, n_explicit.
  induction key as [|k key IH]; [reflexivity|].
  destruct k; cbn; intros H; try discriminate; f_equal; now apply IH.
Qed.

End OneFileSlice.

Section BlockFacts.

Variable self : FileSequenceAdapter.
Local Abbreviation fs := (filepaths self).
Local Abbreviation N := (length (slabs (filepaths self))).

Lemma log_bind_lift {E A B} (m : io E A) (f : A -> result B) :
  log (x <- m ;; lift (f x)) = log m.
Proof.
  destruct m as [l [a|e]]; cbn; [apply app_nil_r|reflexivity].
Qed.

Lemma load_log_bounded (a : load_arg) :
  Forall (fun j => (j < N)%nat) (log (_load_from_files fs a)).
Proof.
  destruct a as [i|s]; unfold _load_from_files.
  - destruct (norm_index N i) as [j|] eqn:E; cbn; [|constructor].
    constructor; [|constructor]. eapply norm_index_lt; eassumption.
  - destruct (slice_indices s N) as [idxs|e] eqn:E; cbn; [|constructor].
    eapply slice_indices_bounded; eassumption.
Qed.

Lemma read_axis_log (x : axis_index) :
  log (read_axis self x)
  = log (_load_from_files fs match x with
                            | AInt i => LInt i
                            | ASlice s => LSlice s
                            | AEllipsis => LSlice slice_all
                            end).
Proof.
  destruct x as [i|s|]; cbn [read_axis]; try reflexivity.
  unfold _load_from_files.
  destruct (norm_index N i); [|reflexivity]. reflexivity.
Qed.



(** Whatever the argument, [read] opens positions of the file list
    only. *)
Lemma read_opens_only_existing_files (slice : slice_arg) :
  Forall (fun j => (j < N)%nat) (log (read self slice)).
Proof.
  destruct slice as [sel| |]; [|constructor|constructor].
  destruct sel as [|i|s|items].
  - cbn [read]. rewrite read_axis_log. apply load_log_bounded.
  - cbn [read]. rewrite read_axis_log. apply load_log_bounded.
  - cbn [read]. rewrite read_axis_log. apply load_log_bounded.
  - destruct items as [|x [|r rest]].
    + cbn [read]. apply load_log_bounded.
    + cbn [read]. rewrite read_axis_log. apply load_log_bounded.
    + rewrite read_tuple_log, read_axis_log. apply load_log_bounded.
Qed.

(** X3.  read_block opens at most one file, whatever the block index
    and the slice argument. *)
Theorem read_block_opens_at_most_one_file
        (block : list Z) (slice : option NDSlice) :
  (length (log (read_block self block slice)) <= 1)%nat.
Proof.
  unfold read_block. destruct (any (tl block)); [cbn; lia|].
  destruct block as [|b0 zs]; [cbn; lia|].
  rewrite log_bind_lift.
  cbn [read read_axis]. unfold _load_from_files.
  rewrite slice_indices_one_cases.
  destruct ((0 <=? b0) && (b0 <? Z.of_nat N));
    [|destruct ((- Z.of_nat N <=? b0) && (b0 <? -1))];
    cbn; lia.
Qed.


(** X5.  A negative leading block index i with -N <= i <= -2 counts
    from the end: read_block((i, 0, ..., 0)) is the block of file
    N + i. *)
Theorem read_block_negative_index_counts_from_the_end
        (i : Z) (zs : list Z) :
  wf_files fs -> - Z.of_nat N <= i < -1 ->
  Forall (fun z => z = 0) zs ->
  read_block self (i :: zs) (Some NEllipsis)
  = ([Z.to_nat (i + Z.of_nat N)],
     Ok (newaxis (slab fs (Z.to_nat (i + Z.of_nat N)))))
  /\ read_block self (i :: zs) (Some NEllipsis)
     = read_block self (i + Z.of_nat N :: zs) (Some NEllipsis).
Proof.
  intros Hwf Hi Hzs.
  assert (Hblock : forall k j, slice_indices (slice2 k (k + 1)) N = Ok [j] ->
            (j < N)%nat ->
            read_block self (k :: zs) (Some NEllipsis)
            = ([j], Ok (newaxis (slab fs j)))).
  { intros k j Hk Hj. unfold read_block. cbn [tl].
    rewrite any_all_zero by exact Hzs.
    cbn [read read_axis]. unfold _load_from_files. rewrite Hk.
    cbn [bind flat_map length getitem_arg lift]. rewrite !app_nil_r.
    rewrite getitem_ellipsis; [reflexivity|].
    unfold wf. cbn [data shape].
    rewrite wf_files_nth by assumption.
    change (size (1%nat :: slab_shape fs))
      with (1 * size (slab_shape fs))%nat. lia. }
  rewrite (Hblock i (Z.to_nat (i + Z.of_nat N))); [| |lia].
  - split; [reflexivity|].
    rewrite (Hblock (i + Z.of_nat N) (Z.to_nat (i + Z.of_nat N)));
      [reflexivity| |lia].
    apply slice_indices_one. lia.
  - rewrite slice_indices_one_cases.
    replace ((0 <=? i) && (i <? Z.of_nat N)) with false
      by (symmetry; apply andb_false_iff; rewrite Z.leb_gt; lia).
    replace ((- Z.of_nat N <=? i) && (i <? -1)) with true
      by (symmetry; apply andb_true_iff;
          rewrite Z.leb_le, Z.ltb_lt; lia).
    reflexivity.
Qed.

End BlockFacts.

Section GridFacts.

Lemma nth_repeat_one (n i : nat) :
  (i < n)%nat -> nth i (repeat 1%nat n) 0%nat = 1%nat.
Proof.
  revert i. induction n as [|n IH]; intros i H; [lia|].
  destruct i as [|i]; [reflexivity|]. cbn. apply IH. lia.
Qed.

Lemma chunk_shape_trailing (sh : list nat) :
  map (fun p => nth (snd p) (fst p) 0%nat)
      (combine (map (fun n => [n]) sh) (repeat 0%nat (length sh)))
  = sh.
Proof.
  induction sh as [|n sh IH]; [reflexivity|]. cbn. now rewrite IH.
Qed.

Lemma trailing_zeros (k : nat) :
  Forall (fun z => z = 0) (map Z.of_nat (repeat 0%nat k)).
Proof.
  induction k as [|k IH]; cbn; constructor; [reflexivity|exact IH].
Qed.

(** What a successful construction without a structure returns. *)
Lemma init_inferred (fs : files) (l : list nat) (self : FileSequenceAdapter) :
  __init__ fs None = (l, Ok self) ->
  self = mk_adapter fs
           (mk_ArrayStructure (slab_dtype fs)
              (repeat 1%nat (length (slabs fs))
               :: map (fun n => [n]) (slab_shape fs))
              (length (slabs fs) :: slab_shape fs)).
Proof.
  unfold __init__, _load_from_files.
  destruct (norm_index (length (slabs fs)) 0); cbn; [|discriminate].
  now intros [= _ <-].
Qed.

(** The block of the file at position [j]. *)
Lemma read_block_at (self : FileSequenceAdapter) (k : Z) (j : nat)
      (zs : list Z) :
  wf_files (filepaths self) ->
  slice_indices (slice2 k (k + 1)) (length (slabs (filepaths self)))
  = Ok [j] ->
  (j < length (slabs (filepaths self)))%nat ->
  Forall (fun z => z = 0) zs ->
  read_block self (k :: zs) (Some NEllipsis)
  = ([j], Ok (newaxis (slab (filepaths self) j))).
Proof.
  intros Hwf Hk Hj Hzs. unfold read_block. cbn [tl].
  rewrite any_all_zero by exact Hzs.
  cbn [read read_axis]. unfold _load_from_files. rewrite Hk.
  cbn [bind flat_map length getitem_arg lift]. rewrite !app_nil_r.
  rewrite getitem_ellipsis; [reflexivity|].
  unfold wf. cbn [data shape].
  rewrite wf_files_nth by assumption.
  change (size (1%nat :: slab_shape (filepaths self)))
    with (1 * size (slab_shape (filepaths self)))%nat. lia.
Qed.

(** X6.  For an adapter constructed without a structure, the inferred
    chunk grid describes the blocks: for every file position i,
    read_block((i, 0, ..., 0)) opens file i only and returns an array
    whose shape is the chunk shape the structure declares at that block
    index; and the blocks, read in order, hold exactly the elements of
    read(). *)
Theorem blocks_tile_the_array
        (fs : files) (l : list nat) (self : FileSequenceAdapter) :
  wf_files fs ->
  __init__ fs None = (l, Ok self) ->
  (forall i, (i < length (slabs fs))%nat ->
     exists arr,
       read_block self (map Z.of_nat (file_block fs i)) (Some NEllipsis)
       = ([i], Ok arr)
       /\ shape arr = chunk_shape (structure self) (file_block fs i))
  /\ flat_map
       (fun i => value_data
                   (read_block self (map Z.of_nat (file_block fs i))
                               (Some NEllipsis)))
       (seq 0 (length (slabs fs)))
     = value_data (read self (Sel NEllipsis)).
Proof.
  intros Hwf Hinit. apply init_inferred in Hinit. subst self.
  set (self := mk_adapter fs _).
  assert (Hblock : forall i, (i < length (slabs fs))%nat ->
            read_block self (map Z.of_nat (file_block fs i)) (Some NEllipsis)
            = ([i], Ok (newaxis (slab fs i)))).
  { intros i Hi. unfold file_block. cbn [map].
    apply (read_block_at self (Z.of_nat i) i); try assumption.
    - cbn [filepaths self]. rewrite slice_indices_one by lia.
      now rewrite Nat2Z.id.
    - apply trailing_zeros. }
  split.
  - intros i Hi. eexists. split; [apply Hblock; exact Hi|].
    unfold chunk_shape, file_block.
    cbn [structure _structure self chunks combine map fst snd newaxis
         slab shape].
    rewrite nth_repeat_one by exact Hi.
    now rewrite chunk_shape_trailing.
  - rewrite (flat_map_agree _ (fun i => nth i (slabs fs) [])).
    + rewrite flat_map_nth_seq. cbn [read read_axis].
      change (filepaths self) with fs. now rewrite load_all.
    + intros i Hi. apply in_seq in Hi.
      rewrite Hblock by lia. reflexivity.
Qed.

(** X7.  For an adapter constructed without a structure, structure()
    advertises what read() returns: the same shape and the same dtype,
    with one chunk-length tuple per dimension. *)
Theorem inferred_structure_describes_read
        (fs : files) (l : list nat) (self : FileSequenceAdapter) :
  __init__ fs None = (l, Ok self) ->
  exists arr,
    outcome (read self (Sel NEllipsis)) = Ok arr
    /\ shape arr = s_shape (structure self)
    /\ a_dtype arr = data_type (structure self)
    /\ length (chunks (structure self)) = length (shape arr).
Proof.
  intros Hinit. apply init_inferred in Hinit. subst self.
  cbn [read read_axis filepaths]. rewrite load_all.
  eexists. split; [reflexivity|].
  cbn. now rewrite length_map.
Qed.

End GridFacts.

Section ErrorFacts.

Variable self : FileSequenceAdapter.
Local Abbreviation fs := (filepaths self).
Local Abbreviation N := (length (slabs (filepaths self))).


(** How a tuple with trailing selectors ends: the load of the leading
    selector, then the indexing. *)
Lemma read_tuple_outcome (x r : axis_index) (rest : list axis_index) :
  outcome (read self (Sel (NTuple (x :: r :: rest))))
  = (arr <~ outcome (read_axis self x) ;;
     rmap atleast_1d
          (getitem arr match x with
                       | AEllipsis => AEllipsis :: r :: rest
                       | _ => r :: rest
                       end)).
Proof.
  destruct x as [i|s|]; cbn [read read_axis]; unfold _load_from_files.
  - destruct (norm_index N i); [|reflexivity].
    cbn -[getitem]. case_getitem; reflexivity.
  - destruct (slice_indices s N); [|reflexivity].
    cbn -[getitem]. case_getitem; reflexivity.
  - destruct (slice_indices slice_all N); [|reflexivity].
    cbn -[getitem]. case_getitem; reflexivity.
Qed.

(** X8.  A tuple with trailing selectors never yields a 0-d value:
    whatever read returns for it has at least one dimension. *)
Theorem read_tuple_result_has_a_dimension
        (x r : axis_index) (rest : list axis_index) (arr : ndarray) :
  outcome (read self (Sel (NTuple (x :: r :: rest)))) = Ok arr ->
  shape arr <> [].
Proof.
  rewrite read_tuple_outcome.
  destruct (outcome (read_axis self x)) as [a|e]; cbn -[getitem];
    [|discriminate].
  case_getitem; cbn; [|discriminate].
  intros [= <-]. apply shape_atleast_1d.
Qed.


Lemma getitem_too_many (a : ndarray) (key : list axis_index) :
  n_ellipsis key = 0%nat ->
  (length (shape a) < length key)%nat ->
  getitem a key = Raise IndexError.
Proof.
  intros Hell Hlen. unfold getitem, expand.
  rewrite Hell, (n_explicit_no_ellipsis _ Hell).
  change (1 <? 0)%nat with false. cbv iota.
  replace (length (shape a) <? length key)%nat with true
    by (symmetry; apply Nat.ltb_lt; exact Hlen).
  reflexivity.
Qed.

(** X10.  A tuple that starts with the position of an existing file and
    carries more trailing selectors than a slab has dimensions (none of
    them Ellipsis) raises IndexError, and the file has been opened by
    then. *)
Theorem read_too_many_selectors_raises_after_loading
        (i : Z) (rest : list axis_index) :
  0 <= i < Z.of_nat N ->
  n_ellipsis rest = 0%nat ->
  (length (slab_shape fs) < length rest)%nat ->
  read self (Sel (NTuple (AInt i :: rest)))
  = ([Z.to_nat i], Raise IndexError).
Proof.
  intros Hi Hell Hlen.
  destruct rest as [|r rest]; [cbn in Hlen; lia|].
  cbn [read]. rewrite load_int by exact Hi.
  cbn [bind lift squeeze0 newaxis slab shape ret fst snd app a_dtype data].
  rewrite getitem_too_many by assumption. reflexivity.
Qed.

End ErrorFacts.

(* ================================================================== *)
(** * Further properties of the dataframe client *)
(* ================================================================== *)

Section TableFacts.

Import DataFrame.

Variable self : client.
Local Abbreviation n := (npartitions (c_structure self)).

Lemma in_grid_true (p : Z) :
  0 <= p < n -> negb ((0 <=? p) && (p <? n)) = false.
Proof. intros H. now apply in_grid_dec. Qed.

Lemma out_of_grid_true (p : Z) :
  ~ 0 <= p < n -> negb ((0 <=? p) && (p <? n)) = true.
Proof.
  intros H. destruct (negb _) eqn:E; [reflexivity|].
  apply in_grid_dec in E. contradiction.
Qed.

(** X11.  Asking read_partition for a column the table does not have
    raises KeyError when the partition is in the grid and IndexError
    when it is not; in both cases no request is sent. *)
Theorem read_partition_unknown_column_sends_nothing
        (p : Z) (cs : list string) :
  forallb (fun c => in_columns c (meta (c_structure self))) cs = false ->
  (0 <= p < n ->
   DataFrameClient_read_partition self p (Some cs) = ([], Raise KeyError))
  /\ (~ 0 <= p < n ->
      DataFrameClient_read_partition self p (Some cs)
      = ([], Raise IndexError)).
Proof.
  intros Hcs. unfold DataFrameClient_read_partition, read_partition.
  split; intros Hp.
  - rewrite in_grid_true by exact Hp. cbn [select_meta]. now rewrite Hcs.
  - now rewrite out_of_grid_true by exact Hp.
Qed.


(** X13.  When read(columns) returns, its frame holds one delayed fetch
    per partition 0, ..., npartitions-1, in this order and each with the
    requested columns; its divisions have one entry more than it has
    partitions; and the fetch of any read_partition(p, columns) that
    returns is one of them. *)
Theorem read_fetches_every_partition_once
        (columns : option (list string)) (ddf : dask_dataframe) :
  0 <= n ->
  read self columns = Ok ddf ->
  map d_partition (dd_tasks ddf) = map Z.of_nat (seq 0 (Z.to_nat n))
  /\ Forall (fun t => d_columns t = columns) (dd_tasks ddf)
  /\ length (dd_divisions ddf) = S (length (dd_tasks ddf))
  /\ (forall p ddp, read_partition self p columns = Ok ddp ->
                    incl (dd_tasks ddp) (dd_tasks ddf)).
Proof.
  intros Hn Hread.
  assert (Htasks : dd_tasks ddf
                   = map (fun k => mk_delayed (Z.of_nat k) columns)
                         (seq 0 (Z.to_nat n))
                   /\ dd_divisions ddf = repeat None (Z.to_nat (1 + n))).
  { unfold read in Hread.
    destruct (select_meta (meta (c_structure self)) columns) as [m|e];
      cbn [rbind] in Hread; [|discriminate].
    destruct columns as [cs|].
    - cbn [dd_meta dd_tasks dd_divisions] in Hread.
      destruct (getitem_columns m cs); cbn [rbind] in Hread;
        [|discriminate].
      injection Hread as <-. split; reflexivity.
    - injection Hread as <-. split; reflexivity. }
  destruct Htasks as [Ht Hd]. rewrite Ht, Hd.
  split; [now rewrite map_map|]. split.
  - apply Forall_forall. intros t Ht'. apply in_map_iff in Ht'.
    destruct Ht' as [k [<- _]]. reflexivity.
  - split.
    + rewrite repeat_length, length_map, length_seq. lia.
    + intros p ddp Hp. unfold read_partition in Hp.
      destruct (negb ((0 <=? p) && (p <? n))) eqn:E; [discriminate|].
      apply in_grid_dec in E.
      destruct (select_meta (meta (c_structure self)) columns);
        cbn [rbind] in Hp; [|discriminate].
      injection Hp as <-. cbn [dd_tasks].
      intros t [<-|[]]. apply in_map_iff.
      exists (Z.to_nat p). split; [f_equal; lia|].
      apply in_seq. lia.
Qed.

End TableFacts.

Section ColumnFacts.

Import DataFrame.
Local Open Scope string_scope.

Lemma endswith_slash_app (s : string) : endswith_slash (s ++ "/") = true.
Proof.
  induction s as [|c s IH]; [reflexivity|].
  cbn [append]. destruct (s ++ "/") eqn:E.
  - destruct s; discriminate.
  - cbn [endswith_slash]. exact IH.
Qed.

Lemma drop_last_app (s : string) : drop_last (s ++ "/") = s.
Proof.
  induction s as [|c s IH]; [reflexivity|].
  cbn [append]. destruct (s ++ "/") as [|a s0] eqn:E.
  - destruct s; discriminate.
  - change (drop_last (String c (String a s0)))
      with (String c (drop_last (String a s0))).
    now rewrite IH.
Qed.

(** X14.  One trailing slash on the node's own link makes no
    difference to column access: the same URL is requested and the same
    result comes back as for the link without it. *)
Theorem getitem_ignores_one_trailing_slash
        (link column : string) (server : string -> column_response) :
  endswith_slash link = false ->
  __getitem__ (mk_column_client (link ++ "/") server) column
  = __getitem__ (mk_column_client link server) column.
Proof.
  intros Hlink. unfold __getitem__. cbn [links_self http_get].
  now rewrite endswith_slash_app, drop_last_app, Hlink.
Qed.


End ColumnFacts.

(* ================================================================== *)
(** * Further properties of the settings *)
(* ================================================================== *)

Section SecretKeyFacts.

Import ServerSettings.
Local Open Scope string_scope.

Lemma split_nonempty (sep : ascii) (s : string) : split sep s <> [].
Proof.
  destruct s as [|c s]; cbn; [discriminate|].
  destruct (Ascii.eqb c sep); [discriminate|].
  destruct (split sep s); discriminate.
Qed.

Lemma concat_split (sep : ascii) (s : string) :
  String.concat (String sep "") (split sep s) = s.
Proof.
  induction s as [|c s IH]; [reflexivity|]. cbn [split].
  destruct (Ascii.eqb_spec c sep) as [->|Hc].
  - cbn [String.concat]. destruct (split sep s) as [|p ps] eqn:E.
    + now apply split_nonempty in E.
    + cbn [append]. now rewrite IH.
  - destruct (split sep s) as [|p ps] eqn:E.
    + now apply split_nonempty in E.
    + destruct ps as [|q qs]; cbn [String.concat append] in *; now rewrite IH.
Qed.

Lemma split_pieces_without_sep (sep : ascii) (s : string) :
  Forall (fun k => occurs sep k = false) (split sep s).
Proof.
  induction s as [|c s IH]; [repeat constructor|]. cbn [split].
  destruct (Ascii.eqb_spec c sep) as [->|Hc].
  - constructor; [reflexivity|exact IH].
  - destruct (split sep s) as [|p ps]; [repeat constructor|].
    + cbn. apply Ascii.eqb_neq in Hc. now rewrite Hc.
    + inversion IH as [|? ? Hp Hps]; subst. constructor; [|exact Hps].
      cbn. apply Ascii.eqb_neq in Hc. now rewrite Hc.
Qed.

Lemma split_without_sep (sep : ascii) (s : string) :
  occurs sep s = false -> split sep s = [s].
Proof.
  induction s as [|c s IH]; [reflexivity|]. cbn.
  destruct (Ascii.eqb c sep); [discriminate|]. cbn.
  intros H. now rewrite IH.
Qed.

(** X16.  Settings.secret_keys always holds at least one key; no key
    contains ';'; joining the keys with ';' gives back the value they
    were read from (TILED_SERVER_SECRET_KEYS if set, else the generated
    token); and a value without ';' is taken as the single key. *)
Theorem secret_keys_split_round_trip
        (environ : string -> option string) (token_hex : string) :
  secret_keys environ token_hex <> []
  /\ Forall (fun k => occurs ";" k = false) (secret_keys environ token_hex)
  /\ String.concat ";" (secret_keys environ token_hex)
     = getenv environ "TILED_SERVER_SECRET_KEYS" token_hex
  /\ (occurs ";" (getenv environ "TILED_SERVER_SECRET_KEYS" token_hex)
      = false ->
      secret_keys environ token_hex
      = [getenv environ "TILED_SERVER_SECRET_KEYS" token_hex]).
Proof.
  unfold secret_keys.
  split; [apply split_nonempty|].
  split; [apply split_pieces_without_sep|].
  split; [apply concat_split|apply split_without_sep].
Qed.

End SecretKeyFacts.

(* ================================================================== *)
(** * Worked instances of the further properties *)
(* ================================================================== *)



Lemma read_block_negative_index_counts_from_the_end_witness :
  wf_files (filepaths three_adapter)
  /\ - Z.of_nat (length (slabs (filepaths three_adapter))) <= -2 < -1
  /\ Forall (fun z => z = 0) [0; 0]
  /\ read_block three_adapter [-2; 0; 0] (Some NEllipsis)
     = read_block three_adapter
                  [-2 + Z.of_nat (length (slabs (filepaths three_adapter)));
                   0; 0]
                  (Some NEllipsis).
Proof.
  assert (H1 : wf_files (filepaths three_adapter)) by (repeat constructor).
  assert (H2 : - Z.of_nat (length (slabs (filepaths three_adapter)))
               <= -2 < -1) by (simpl; lia).
  assert (H3 : Forall (fun z => z = 0) [0; 0]) by (repeat constructor).
  split; [exact H1|]. split; [exact H2|]. split; [exact H3|].
  exact (proj2 (read_block_negative_index_counts_from_the_end
                  three_adapter (-2) [0; 0] H1 H2 H3)).
Defined.

Lemma blocks_tile_the_array_witness :
  wf_files three_files
  /\ __init__ three_files None = ([0%nat], Ok three_adapter)
  /\ flat_map
       (fun i => value_data
                   (read_block three_adapter
                               (map Z.of_nat (file_block three_files i))
                               (Some NEllipsis)))
       (seq 0 (length (slabs three_files)))
     = value_data (read three_adapter (Sel NEllipsis)).
Proof.
  assert (H1 : wf_files three_files) by (repeat constructor).
  assert (H2 : __init__ three_files None = ([0%nat], Ok three_adapter))
    by reflexivity.
  split; [exact H1|]. split; [exact H2|].
  exact (proj2 (blocks_tile_the_array
                  three_files [0%nat] three_adapter H1 H2)).
Defined.

Lemma inferred_structure_describes_read_witness :
  __init__ three_files None = ([0%nat], Ok three_adapter)
  /\ exists arr,
       outcome (read three_adapter (Sel NEllipsis)) = Ok arr
       /\ shape arr = s_shape (structure three_adapter)
       /\ a_dtype arr = data_type (structure three_adapter)
       /\ length (chunks (structure three_adapter)) = length (shape arr).
Proof.
  assert (H : __init__ three_files None = ([0%nat], Ok three_adapter))
    by reflexivity.
  split; [exact H|].
  exact (inferred_structure_describes_read
           three_files [0%nat] three_adapter H).
Defined.

Lemma read_tuple_result_has_a_dimension_witness :
  outcome (read three_adapter (Sel (NTuple [AInt 0; AInt 1; AInt 0])))
  = Ok (mk_ndarray uint8 [1%nat] [3])
  /\ shape (mk_ndarray uint8 [1%nat] [3]) <> [].
Proof.
  assert (H : outcome (read three_adapter
                            (Sel (NTuple [AInt 0; AInt 1; AInt 0])))
              = Ok (mk_ndarray uint8 [1%nat] [3])) by reflexivity.
  split; [exact H|].
  exact (read_tuple_result_has_a_dimension
           three_adapter (AInt 0) (AInt 1) [AInt 0] _ H).
Defined.

Lemma read_too_many_selectors_raises_after_loading_witness :
  0 <= 1 < Z.of_nat (length (slabs (filepaths three_adapter)))
  /\ n_ellipsis [AInt 0; AInt 0; AInt 0] = 0%nat
  /\ (length (slab_shape (filepaths three_adapter))
      < length [AInt 0; AInt 0; AInt 0])%nat
  /\ read three_adapter (Sel (NTuple [AInt 1; AInt 0; AInt 0; AInt 0]))
     = ([Z.to_nat 1], Raise IndexError).
Proof.
  assert (H1 : 0 <= 1 < Z.of_nat (length (slabs (filepaths three_adapter))))
    by (simpl; lia).
  assert (H2 : n_ellipsis [AInt 0; AInt 0; AInt 0] = 0%nat) by reflexivity.
  assert (H3 : (length (slab_shape (filepaths three_adapter))
                < length [AInt 0; AInt 0; AInt 0])%nat) by (simpl; lia).
  split; [exact H1|]. split; [exact H2|]. split; [exact H3|].
  exact (read_too_many_selectors_raises_after_loading
           three_adapter 1 [AInt 0; AInt 0; AInt 0] H1 H2 H3).
Defined.

Lemma read_partition_unknown_column_sends_nothing_witness :
  forallb (fun c => DataFrame.in_columns
                      c (DataFrame.meta
                           (DataFrame.c_structure three_partitions)))
          ["Z"%string] = false
  /\ 0 <= 1 < DataFrame.npartitions (DataFrame.c_structure three_partitions)
  /\ DataFrame.DataFrameClient_read_partition
       three_partitions 1 (Some ["Z"%string])
     = ([], Raise KeyError).
Proof.
  assert (H1 : forallb (fun c => DataFrame.in_columns
                                   c (DataFrame.meta
                                        (DataFrame.c_structure
                                           three_partitions)))
                       ["Z"%string] = false) by reflexivity.
  assert (H2 : 0 <= 1 < DataFrame.npartitions
                          (DataFrame.c_structure three_partitions))
    by (simpl; lia).
  split; [exact H1|]. split; [exact H2|].
  exact (proj1 (read_partition_unknown_column_sends_nothing
                  three_partitions 1 ["Z"%string] H1) H2).
Defined.


Lemma read_fetches_every_partition_once_witness :
  0 <= DataFrame.npartitions (DataFrame.c_structure three_partitions)
  /\ DataFrame.read three_partitions (Some ["B"%string])
     = Ok (DataFrame.mk_dask_dataframe
             [DataFrame.mk_delayed 0 (Some ["B"%string]);
              DataFrame.mk_delayed 1 (Some ["B"%string]);
              DataFrame.mk_delayed 2 (Some ["B"%string])]
             ["B"%string]
             [None; None; None; None])
  /\ map DataFrame.d_partition
         [DataFrame.mk_delayed 0 (Some ["B"%string]);
          DataFrame.mk_delayed 1 (Some ["B"%string]);
          DataFrame.mk_delayed 2 (Some ["B"%string])]
     = map Z.of_nat
           (seq 0 (Z.to_nat (DataFrame.npartitions
                               (DataFrame.c_structure three_partitions)))).
Proof.
  assert (H1 : 0 <= DataFrame.npartitions
                      (DataFrame.c_structure three_partitions))
    by (simpl; lia).
  assert (H2 : DataFrame.read three_partitions (Some ["B"%string])
               = Ok (DataFrame.mk_dask_dataframe
                       [DataFrame.mk_delayed 0 (Some ["B"%string]);
                        DataFrame.mk_delayed 1 (Some ["B"%string]);
                        DataFrame.mk_delayed 2 (Some ["B"%string])]
                       ["B"%string]
                       [None; None; None; None])) by reflexivity.
  split; [exact H1|]. split; [exact H2|].
  exact (proj1 (read_fetches_every_partition_once
                  three_partitions (Some ["B"%string]) _ H1 H2)).
Defined.

Lemma getitem_ignores_one_trailing_slash_witness :
  DataFrame.endswith_slash "/x/t"%string = false
  /\ DataFrame.__getitem__
       (DataFrame.mk_column_client
          ("/x/t" ++ "/")%string
          (fun url => DataFrame.Content url)) "A"%string
     = DataFrame.__getitem__
         (DataFrame.mk_column_client
            "/x/t"%string
            (fun url => DataFrame.Content url)) "A"%string.
Proof.
  assert (H : DataFrame.endswith_slash "/x/t"%string = false)
    by reflexivity.
  split; [exact H|].
  exact (getitem_ignores_one_trailing_slash
           "/x/t"%string "A"%string
           (fun url => DataFrame.Content url) H).
Defined.
